(** * validate_openapi.py: the OpenAPI validator and linter

    A shallow embedding of [skills/openapi-validator/scripts/validate_openapi.py]
    and the properties of its lint engine, conformance checker, loader and
    report.

    Python values are an inductive type, dictionaries are association lists
    in insertion order, [warnings.append] is a writer effect and a Python
    exception is the [Raise] outcome of a computation. *)

From Stdlib Require Import String Ascii List ZArith Bool Lia DecimalString.
Import ListNotations.
Local Open Scope list_scope.
Local Open Scope string_scope.
Local Set Warnings "-register-all".

(** ** Python values *)

Module Py.

(** Keys of a parsed mapping are hashable scalars. A float is kept as its
    [str()] text, the only thing the program observes of a float key. *)
Inductive key : Type :=
| KNone
| KBool (b : bool)
| KInt (n : Z)
| KFloat (repr : string)
| KStr (s : string).

(** What [json.loads] builds, and [yaml.safe_load] from plain scalars,
    sequences and mappings; the bytes, dates and sets of YAML tags are not
    modelled. Text is a sequence of code points below 256. *)
Inductive value : Type :=
| VNone
| VBool (b : bool)
| VInt (n : Z)
| VFloat (repr : string)
| VStr (s : string)
| VList (items : list value)
| VDict (entries : list (key * value)).

Definition dict : Type := list (key * value).

(** [bool(v)], the test behind [if v] and [not v]. *)
Definition truthy (v : value) : bool :=
  match v with
  | VNone => false
  | VBool b => b
  | VInt n => negb (n =? 0)%Z
  | VFloat repr => negb ((repr =? "0.0") || (repr =? "-0.0"))
  | VStr s => negb (s =? "")
  | VList items => match items with [] => false | _ => true end
  | VDict entries => match entries with [] => false | _ => true end
  end.

Definition type_name (v : value) : string :=
  match v with
  | VNone => "NoneType"
  | VBool _ => "bool"
  | VInt _ => "int"
  | VFloat _ => "float"
  | VStr _ => "str"
  | VList _ => "list"
  | VDict _ => "dict"
  end.

Definition key_type_name (k : key) : string :=
  match k with
  | KNone => "NoneType"
  | KBool _ => "bool"
  | KInt _ => "int"
  | KFloat _ => "float"
  | KStr _ => "str"
  end.

(** [str(k)], also what an f-string field [{k}] prints; for an integer,
    within the digit limit of the interpreter for [str]. *)
Definition str_key (k : key) : string :=
  match k with
  | KNone => "None"
  | KBool true => "True"
  | KBool false => "False"
  | KInt n => NilZero.string_of_int (Z.to_int n)
  | KFloat repr => repr
  | KStr s => s
  end.

(** [s.startswith(p)] on two strings. *)
Definition startswith (s p : string) : bool := String.prefix p s.

(** The entry stored under the string [name]: a string is equal to no key
    of another type. *)
Fixpoint lookup (d : dict) (name : string) : option value :=
  match d with
  | [] => None
  | (KStr s, v) :: rest => if s =? name then Some v else lookup rest name
  | _ :: rest => lookup rest name
  end.

(** [name in d] *)
Definition contains (d : dict) (name : string) : bool :=
  match lookup d name with Some _ => true | None => false end.

(** [str.upper()] on the ASCII letters. *)
Definition upper_ascii (c : ascii) : ascii :=
  let n := nat_of_ascii c in
  if ((97 <=? n) && (n <=? 122))%nat then ascii_of_nat (n - 32) else c.

Fixpoint upper (s : string) : string :=
  match s with
  | EmptyString => EmptyString
  | String c rest => String (upper_ascii c) (upper rest)
  end.

(** [str.isspace()] of one code point below 256. *)
Definition isspace (c : ascii) : bool :=
  let n := nat_of_ascii c in
  (((9 <=? n) && (n <=? 13)) || ((28 <=? n) && (n <=? 32))
   || (n =? 133) || (n =? 160))%nat.

Fixpoint lstrip (s : string) : string :=
  match s with
  | EmptyString => EmptyString
  | String c rest => if isspace c then lstrip rest else s
  end.

Fixpoint rstrip (s : string) : string :=
  match s with
  | EmptyString => EmptyString
  | String c rest =>
      match rstrip rest with
      | EmptyString => if isspace c then EmptyString else String c EmptyString
      | kept => String c kept
      end
  end.

(** [s.strip()] *)
Definition strip (s : string) : string := rstrip (lstrip s).

(** Exceptions, by the classes the program tells apart. [exn_str] is
    [str(e)]; [exn_message] is the attribute [e.message] when the
    exception has one. *)
Inductive exn_class : Type :=
| FileNotFoundError
| ImportError
| YAMLError
| JSONDecodeError
| AttributeError
| OpenAPIValidationError
| OtherException.

Record exn : Type := Exn {
  exn_class_of : exn_class;
  exn_str : string;
  exn_message : option string
}.

Definition attribute_error (type attr : string) : exn :=
  Exn AttributeError
      ("'" ++ type ++ "' object has no attribute '" ++ attr ++ "'") None.

Inductive result (A : Type) : Type :=
| Ok (a : A)
| Raise (e : exn).

Arguments Ok {A} a.
Arguments Raise {A} e.

End Py.
Import Py.

(** ** The lint monad: warnings appended so far, or an exception *)

Definition Lint (A : Type) : Type := result (A * list string).

Definition ret {A} (a : A) : Lint A := Ok (a, []).

Definition bind {A B} (m : Lint A) (f : A -> Lint B) : Lint B :=
  match m with
  | Raise e => Raise e
  | Ok (a, w) =>
      match f a with
      | Raise e => Raise e
      | Ok (b, w') => Ok (b, (w ++ w')%list)
      end
  end.

Notation "x <- m ;; k" := (bind m (fun x => k))
  (at level 61, m at next level, right associativity).
Notation "m ;; k" := (bind m (fun _ => k))
  (at level 61, right associativity).

(** [warnings.append(msg)] *)
Definition append (msg : string) : Lint unit := Ok (tt, [msg]).

Definition raise {A} (e : exn) : Lint A := Raise e.

Definition when (b : bool) (m : Lint unit) : Lint unit :=
  if b then m else ret tt.

(** [for x in l: body] *)
Fixpoint for_each {X} (l : list X) (body : X -> Lint unit) : Lint unit :=
  match l with
  | [] => ret tt
  | x :: rest => body x ;; for_each rest body
  end.

(** The warnings of a finished run. *)
Definition warnings_of (m : Lint unit) : result (list string) :=
  match m with
  | Ok (_, w) => Ok w
  | Raise e => Raise e
  end.

(** Attribute access: only a dict has [get], [items] and [keys], only a
    str has [startswith]. *)
Definition dict_method (v : value) (attr : string) : Lint dict :=
  match v with
  | VDict d => ret d
  | _ => raise (attribute_error (type_name v) attr)
  end.

Definition str_method (v : value) (attr : string) : Lint string :=
  match v with
  | VStr s => ret s
  | _ => raise (attribute_error (type_name v) attr)
  end.

Definition key_str_method (k : key) (attr : string) : Lint string :=
  match k with
  | KStr s => ret s
  | _ => raise (attribute_error (key_type_name k) attr)
  end.

(** [v.get(name, default)] *)
Definition py_get (v : value) (name : string) (default : value) : Lint value :=
  d <- dict_method v "get" ;;
  ret (match lookup d name with Some x => x | None => default end).

(** [not v.get(n1) and not v.get(n2) and ...], left to right, stopping at
    the first truthy entry. *)
Fixpoint none_truthy (v : value) (names : list string) : Lint bool :=
  match names with
  | [] => ret true
  | name :: rest =>
      x <- py_get v name VNone ;;
      if truthy x then ret false else none_truthy v rest
  end.

(** ** [lint_spec] *)

(** The method names of line 113, in the order the loop visits them. *)
Definition methods : list string :=
  ["get"; "post"; "put"; "patch"; "delete"; "head"; "options"].

(** Lines 80-85: the [openapi] version field. *)
Definition check_openapi_version (spec : value) : Lint unit :=
  openapi_version <- py_get spec "openapi" (VStr "") ;;
  if negb (truthy openapi_version) then
    append "LINT: Missing 'openapi' version field"
  else
    s <- str_method openapi_version "startswith" ;;
    when (negb (startswith s "3."))
         (append ("LINT: OpenAPI version '" ++ s ++ "' is not 3.x")).

(** Lines 87-97: the [info] section. *)
Definition check_info (spec : value) : Lint unit :=
  info <- py_get spec "info" (VDict []) ;;
  if negb (truthy info) then
    append "LINT: Missing 'info' section"
  else
    title <- py_get info "title" VNone ;;
    when (negb (truthy title)) (append "LINT: Missing 'info.title'") ;;
    version <- py_get info "version" VNone ;;
    when (negb (truthy version)) (append "LINT: Missing 'info.version'") ;;
    description <- py_get info "description" VNone ;;
    when (negb (truthy description))
         (append "LINT: Missing 'info.description' (recommended)").

(** Lines 137-139: one entry of [responses.items()]. *)
Definition check_response (op_id : string) (entry : key * value) : Lint unit :=
  let '(code, response) := entry in
  if truthy response then
    description <- py_get response "description" VNone ;;
    when (negb (truthy description))
         (append ("LINT: " ++ op_id ++ " response '" ++ str_key code
                  ++ "' missing description"))
  else ret tt.

(** Lines 126-139: the responses of one operation. *)
Definition check_responses (op_id : string) (operation : value) : Lint unit :=
  responses <- py_get operation "responses" (VDict []) ;;
  if negb (truthy responses) then
    append ("LINT: " ++ op_id ++ " has no responses defined")
  else
    keys <- dict_method responses "keys" ;;
    let has_success :=
      existsb (fun entry => startswith (str_key (fst entry)) "2") keys in
    when (negb has_success && negb (contains keys "default"))
         (append ("LINT: " ++ op_id ++ " has no success (2xx) response")) ;;
    items <- dict_method responses "items" ;;
    for_each items (check_response op_id).

(** Lines 116-139: the body of [if operation:]. *)
Definition check_operation (method path : string) (operation : value)
  : Lint unit :=
  let op_id := upper method ++ " " ++ path in
  operationId <- py_get operation "operationId" VNone ;;
  when (negb (truthy operationId))
       (append ("LINT: " ++ op_id ++ " missing 'operationId'")) ;;
  undocumented <- none_truthy operation ["summary"; "description"] ;;
  when undocumented
       (append ("LINT: " ++ op_id ++ " missing 'summary' or 'description'")) ;;
  check_responses op_id operation.

(** Lines 114-115: one round of the loop over the methods. *)
Definition check_method (path : string) (path_item : value) (method : string)
  : Lint unit :=
  operation <- py_get path_item method VNone ;;
  if truthy operation then check_operation method path operation
  else ret tt.

(** Lines 105-139: one entry of [paths.items()]. *)
Definition check_path (entry : key * value) : Lint unit :=
  let '(path_key, path_item) := entry in
  path <- key_str_method path_key "startswith" ;;
  when (negb (startswith path "/"))
       (append ("LINT: Path '" ++ path ++ "' should start with '/'")) ;;
  match path_item with
  | VNone => ret tt
  | _ => for_each methods (check_method path path_item)
  end.

(** Lines 99-139: the [paths] section. *)
Definition check_paths (spec : value) : Lint unit :=
  paths <- py_get spec "paths" (VDict []) ;;
  if negb (truthy paths) then
    append "LINT: No paths defined"
  else
    items <- dict_method paths "items" ;;
    for_each items check_path.

(** Lines 145-150: one entry of [schemas.items()]. *)
Definition check_schema (entry : key * value) : Lint unit :=
  let '(schema_name, schema) := entry in
  (if truthy schema then
     description <- py_get schema "description" VNone ;;
     when (negb (truthy description))
          (append ("LINT: Schema '" ++ str_key schema_name
                   ++ "' missing description (recommended)"))
   else ret tt) ;;
  if truthy schema then
    untyped <- none_truthy schema ["type"; "$ref"; "allOf"; "oneOf"; "anyOf"] ;;
    when untyped
         (append ("LINT: Schema '" ++ str_key schema_name
                  ++ "' has no type definition"))
  else ret tt.

(** Lines 76-163. *)
Definition lint_spec (spec : value) : result (list string) :=
  warnings_of (
    check_openapi_version spec ;;
    check_info spec ;;
    check_paths spec ;;
    components <- py_get spec "components" (VDict []) ;;
    schemas <- py_get components "schemas" (VDict []) ;;
    items <- dict_method schemas "items" ;;
    for_each items check_schema ;;
    security <- py_get spec "security" (VList []) ;;
    security_schemes <- py_get components "securitySchemes" (VDict []) ;;
    when (truthy security && negb (truthy security_schemes))
         (append "LINT: Security requirements defined but no securitySchemes in components") ;;
    servers <- py_get spec "servers" (VList []) ;;
    when (negb (truthy servers))
         (append "LINT: No servers defined (recommended for clarity)")).

(** ** The environment of a run

    The capabilities the script imports, and the file system it reads. *)

Record Env : Type := {
  (** line 18/20: whether [import yaml] succeeded *)
  YAML_AVAILABLE : bool;
  (** line 26/28: whether [openapi_spec_validator] was imported *)
  VALIDATOR_AVAILABLE : bool;
  (** [Path(p).exists()] *)
  path_exists : string -> bool;
  (** [Path(p).read_text()] *)
  read_text : string -> result string;
  (** [Path(p).suffix] *)
  suffix : string -> string;
  (** [yaml.safe_load(content)] *)
  yaml_safe_load : string -> result value;
  (** [json.loads(content)] *)
  json_loads : string -> result value;
  (** [validate(read_from_filename(p))]: the exception raised, if any *)
  validate : string -> option exn
}.

(** The same environment with another answer to [import yaml]. *)
Definition with_yaml (available : bool) (env : Env) : Env :=
  {| YAML_AVAILABLE := available;
     VALIDATOR_AVAILABLE := VALIDATOR_AVAILABLE env;
     path_exists := path_exists env;
     read_text := read_text env;
     suffix := suffix env;
     yaml_safe_load := yaml_safe_load env;
     json_loads := json_loads env;
     validate := validate env |}.

(** ** [load_spec], lines 31-53 *)

Definition load_spec (env : Env) (file_path : string) : result value :=
  if negb (path_exists env file_path) then
    Raise (Exn FileNotFoundError ("File not found: " ++ file_path) None)
  else
    match read_text env file_path with
    | Raise e => Raise e
    | Ok content =>
        let sfx := suffix env file_path in
        if (sfx =? ".yaml") || (sfx =? ".yml") then
          if negb (YAML_AVAILABLE env) then
            Raise (Exn ImportError
                     "PyYAML is required for YAML files. Install with: pip install pyyaml"
                     None)
          else yaml_safe_load env content
        else if sfx =? ".json" then
          json_loads env content
        else
          if YAML_AVAILABLE env then
            match yaml_safe_load env content with
            | Ok spec => Ok spec
            | Raise e =>
                match exn_class_of e with
                | YAMLError => json_loads env content
                | _ => Raise e
                end
            end
          else json_loads env content
    end.

(** ** [validate_schema], lines 56-73 *)

Definition validator_missing : string :=
  "ERROR: openapi-spec-validator not installed. Install with: pip install openapi-spec-validator".

Definition validate_schema (env : Env) (file_path : string) : list string :=
  if negb (VALIDATOR_AVAILABLE env) then [validator_missing]
  else
    match validate env file_path with
    | None => []
    | Some e =>
        match exn_class_of e with
        | OpenAPIValidationError =>
            ["SCHEMA ERROR: "
               ++ match exn_message e with
                  | Some message => message
                  | None => exn_str e
                  end]
        | _ =>
            let error_msg := strip (exn_str e) in
            if negb (error_msg =? "") then ["ERROR: " ++ error_msg] else []
        end
    end.

(** ** [main], lines 166-231 *)

Record Args : Type := {
  spec_file : string;
  lint_only : bool;
  schema_only : bool;
  json : bool
}.

(** The [results] dictionary. *)
Record Results : Type := {
  file : string;
  valid : bool;
  schema_errors : list string;
  lint_warnings : list string
}.

Definition set_valid (b : bool) (r : Results) : Results :=
  {| file := file r; valid := b;
     schema_errors := schema_errors r; lint_warnings := lint_warnings r |}.

Definition set_schema_errors (errors : list string) (r : Results) : Results :=
  {| file := file r; valid := valid r;
     schema_errors := errors; lint_warnings := lint_warnings r |}.

Definition set_lint_warnings (warnings : list string) (r : Results) : Results :=
  {| file := file r; valid := valid r;
     schema_errors := schema_errors r; lint_warnings := warnings |}.

Definition nonempty {A} (l : list A) : bool :=
  match l with [] => false | _ => true end.

(** The [results] dictionary as lines 175-180 create it. *)
Definition initial_results (args : Args) : Results :=
  {| file := spec_file args; valid := true;
     schema_errors := []; lint_warnings := [] |}.

(** Lines 186-190. *)
Definition schema_phase (env : Env) (args : Args) (results : Results)
  : Results :=
  if negb (lint_only args) then
    let results := set_schema_errors (validate_schema env (spec_file args)) results in
    if nonempty (schema_errors results) then set_valid false results
    else results
  else results.

(** The body of [try], lines 183-194: [results] as the statements left it,
    and the exception that interrupted them, if any. *)
Definition try_body (env : Env) (args : Args) (results : Results)
  : Results * option exn :=
  match load_spec env (spec_file args) with
  | Raise e => (results, Some e)
  | Ok spec =>
      let results := schema_phase env args results in
      if negb (schema_only args) then
        match lint_spec spec with
        | Ok warnings => (set_lint_warnings warnings results, None)
        | Raise e => (results, Some e)
        end
      else (results, None)
  end.

(** The two [except] clauses, lines 196-201. *)
Definition handle (e : exn) (results : Results) : Results :=
  match exn_class_of e with
  | FileNotFoundError =>
      set_schema_errors [exn_str e] (set_valid false results)
  | _ =>
      set_schema_errors ["Failed to parse spec: " ++ exn_str e]
                        (set_valid false results)
  end.

(** [results] when [main] reaches the output, line 203. *)
Definition run (env : Env) (args : Args) : Results :=
  match try_body env args (initial_results args) with
  | (results, None) => results
  | (results, Some e) => handle e results
  end.

(** Line 231. *)
Definition exit_code (results : Results) : Z :=
  if valid results then 0%Z else 1%Z.

(** The process exit status of [main]. *)
Definition main (env : Env) (args : Args) : Z := exit_code (run env args).

(** ** Sample documents and environments *)

Definition scenario_A : value := VDict [].

Definition scenario_B : value :=
  VDict [(KStr "paths",
          VDict [(KStr "/x",
                  VDict [(KStr "get",
                          VDict [(KStr "responses",
                                  VDict [(KStr "200", VDict [])])])])])].

(** Scenario B with a response that has content but no description. *)
Definition undescribed_response : dict := [(KStr "content", VDict [])].

Definition operation_B : dict :=
  [(KStr "responses", VDict [(KStr "200", VDict undescribed_response)])].

Definition scenario_B_content : value :=
  VDict [(KStr "paths", VDict [(KStr "/x", VDict [(KStr "get", VDict operation_B)])])].


(** A path item that lists [options] before [get]. *)
Definition operation_tagged : dict := [(KStr "tags", VList [VStr "x"])].

Definition item_options_first : dict :=
  [(KStr "options", VDict operation_tagged); (KStr "get", VDict operation_B)].

Definition options_first_document : value :=
  VDict [(KStr "paths", VDict [(KStr "/x", VDict item_options_first)])].

(** Documents with values of another shape than the rules expect. *)
Definition null_components_document : value :=
  VDict [(KStr "components", VNone)].

Definition integer_version_document : value :=
  VDict [(KStr "openapi", VInt 3)].

Definition string_path_item_document : value :=
  VDict [(KStr "paths", VDict [(KStr "/x", VStr "todo")])].

(** A run on one file: whether it exists, its suffix, what the parsers make
    of its content and what the validator says. *)
Definition sample_env (yaml validator present : bool) (sfx : string)
    (as_yaml as_json : result value) (verdict : option exn) : Env :=
  {| YAML_AVAILABLE := yaml;
     VALIDATOR_AVAILABLE := validator;
     path_exists := fun _ => present;
     read_text := fun _ => Ok "content";
     suffix := fun _ => sfx;
     yaml_safe_load := fun _ => as_yaml;
     json_loads := fun _ => as_json;
     validate := fun _ => verdict |}.

Definition sample_args (lint schema : bool) : Args :=
  {| spec_file := "api.json"; lint_only := lint; schema_only := schema;
     json := false |}.

(** [w] is a block of consecutive entries of [ws]. *)
Definition within (w ws : list string) : Prop :=
  exists before after, ws = (before ++ w ++ after)%list.

(** [not d.get(name)]: the entry is missing or falsy. *)
Definition falsy_entry (d : dict) (name : string) : bool :=
  negb (truthy (match lookup d name with Some x => x | None => VNone end)).

(** The identifier [f"{method.upper()} {path}"] of line 116. *)
Definition op_id_of (method path : string) : string :=
  upper method ++ " " ++ path.

(** The entry an [except] clause of [main] stores for the exception [e]. *)
Definition failure_entry (e : exn) : string :=
  match exn_class_of e with
  | FileNotFoundError => exn_str e
  | _ => "Failed to parse spec: " ++ exn_str e
  end.

(** The run went through the [try] body with no exception. *)
Definition completes (env : Env) (args : Args) : Prop :=
  snd (try_body env args (initial_results args)) = None.

(** A conformance violation as the validator raises it. *)
Definition info_violation : exn :=
  Exn OpenAPIValidationError "ValidationError(...)"
      (Some "'info' is a required property").

(** An exception of the validator that is no conformance violation. *)
Definition blank_failure : exn := Exn OtherException "  " None.

(** The warnings of a guarded [warnings.append(msg)]. *)
Definition warn_if (b : bool) (msg : string) : list string :=
  if b then [msg] else [].

(** ** Documents on which the linter returns *)

(** A value the guard [if v and ...] accepts: falsy, or a mapping. *)
Definition mapping_or_falsy (v : value) : bool :=
  match v with
  | VDict _ => true
  | _ => negb (truthy v)
  end.

(** The entry [name] of [d], when present, satisfies [ok]. *)
Definition entry_ok (d : dict) (name : string) (ok : value -> bool) : bool :=
  match lookup d name with
  | Some v => ok v
  | None => true
  end.

Definition shaped_version (v : value) : bool :=
  match v with
  | VStr _ => true
  | _ => negb (truthy v)
  end.

Definition shaped_responses (v : value) : bool :=
  match v with
  | VDict responses =>
      forallb (fun entry => mapping_or_falsy (snd entry)) responses
  | _ => negb (truthy v)
  end.

Definition shaped_operation (v : value) : bool :=
  match v with
  | VDict operation => entry_ok operation "responses" shaped_responses
  | _ => negb (truthy v)
  end.

Definition shaped_path_item (v : value) : bool :=
  match v with
  | VNone => true
  | VDict item =>
      forallb (fun method => entry_ok item method shaped_operation) methods
  | _ => false
  end.

Definition shaped_path (entry : key * value) : bool :=
  match fst entry with
  | KStr _ => shaped_path_item (snd entry)
  | _ => false
  end.

Definition shaped_paths (v : value) : bool :=
  match v with
  | VDict paths => forallb shaped_path paths
  | _ => negb (truthy v)
  end.

Definition shaped_schemas (v : value) : bool :=
  match v with
  | VDict schemas =>
      forallb (fun entry => mapping_or_falsy (snd entry)) schemas
  | _ => false
  end.

Definition shaped_components (v : value) : bool :=
  match v with
  | VDict components => entry_ok components "schemas" shaped_schemas
  | _ => false
  end.

(** The shapes [lint_spec] can traverse. *)
Definition well_shaped (spec : value) : bool :=
  match spec with
  | VDict d =>
      entry_ok d "openapi" shaped_version
      && entry_ok d "info" mapping_or_falsy
      && entry_ok d "paths" shaped_paths
      && entry_ok d "components" shaped_components
  | _ => false
  end.

(** The computation ended without an exception. *)
Definition returns {A} (m : Lint A) : bool :=
  match m with Ok _ => true | Raise _ => false end.

(** The exceptions of attribute access in [lint_spec]: a missing [get],
    [startswith], [items] or [keys]. *)
Definition missing_attribute (e : exn) : Prop :=
  exists type attr,
    e = attribute_error type attr
    /\ In attr ["get"; "startswith"; "items"; "keys"].

(** Whatever [m] raises satisfies [P]. *)
Definition raises_only {A} (P : exn -> Prop) (m : Lint A) : Prop :=
  forall e, m = Raise e -> P e.

(** ** The six rules of [lint_spec] *)

(** Lines 141-150: the schemas under [components]. *)
Definition check_schemas (spec : value) : Lint unit :=
  components <- py_get spec "components" (VDict []) ;;
  schemas <- py_get components "schemas" (VDict []) ;;
  items <- dict_method schemas "items" ;;
  for_each items check_schema.

(** Lines 152-156: security requirements without security schemes.
    [components] is the value line 142 has read. *)
Definition check_security (spec : value) : Lint unit :=
  security <- py_get spec "security" (VList []) ;;
  components <- py_get spec "components" (VDict []) ;;
  security_schemes <- py_get components "securitySchemes" (VDict []) ;;
  when (truthy security && negb (truthy security_schemes))
       (append "LINT: Security requirements defined but no securitySchemes in components").

(** Lines 158-161: the servers. *)
Definition check_servers (spec : value) : Lint unit :=
  servers <- py_get spec "servers" (VList []) ;;
  when (negb (truthy servers))
       (append "LINT: No servers defined (recommended for clarity)").

(** The rule a warning belongs to, read off the start of its text:
    1 version, 2 info, 3 paths, 4 schemas, 5 security, 6 servers. *)
Definition rule_of (w : string) : nat :=
  if startswith w "LINT: Missing 'openapi'"
     || startswith w "LINT: OpenAPI version '" then 1
  else if startswith w "LINT: Missing 'info" then 2
  else if startswith w "LINT: No paths"
          || startswith w "LINT: Path '"
          || existsb (fun m => startswith w ("LINT: " ++ upper m ++ " "))
                     methods then 3
  else if startswith w "LINT: Schema '" then 4
  else if startswith w "LINT: Security " then 5
  else if startswith w "LINT: No servers" then 6
  else 0.

(** The warnings of rule [i] among [ws], in their order. *)
Definition of_rule (i : nat) (ws : list string) : list string :=
  filter (fun w => Nat.eqb (rule_of w) i) ws.

(** Every warning of [ws] belongs to rule [i] and starts with "LINT: ". *)
Definition all_of_rule (i : nat) (ws : list string) : Prop :=
  Forall (fun w => rule_of w = i /\ startswith w "LINT: " = true) ws.

(** Whatever warnings [m] appends satisfy [Q]. *)
Definition emits {A} (Q : string -> Prop) (m : Lint A) : Prop :=
  forall a w, m = Ok (a, w) -> Forall Q w.

(** The warning belongs to rule [i] and starts with "LINT: ". *)
Definition rule_warning (i : nat) (w : string) : Prop :=
  rule_of w = i /\ startswith w "LINT: " = true.

(** An operation identifier built from one of the seven methods. *)
Definition method_id (op_id : string) : Prop :=
  exists m p, In m methods /\ op_id = upper m ++ " " ++ p.

(** The same environment with another validator. *)
Definition with_validator (available : bool) (verdict : string -> option exn)
    (env : Env) : Env :=
  {| YAML_AVAILABLE := YAML_AVAILABLE env;
     VALIDATOR_AVAILABLE := available;
     path_exists := path_exists env;
     read_text := read_text env;
     suffix := suffix env;
     yaml_safe_load := yaml_safe_load env;
     json_loads := json_loads env;
     validate := verdict |}.

(** The text has no whitespace at either end. *)
Definition trimmed (s : string) : Prop := lstrip s = s /\ rstrip s = s.

(** ** More sample documents *)

Definition not_found_response : dict := [(KStr "description", VStr "nf")].

Definition rules_operation : dict :=
  [(KStr "responses", VDict [(KInt 404, VDict not_found_response)])].

Definition rules_paths : dict :=
  [(KStr "x", VNone); (KStr "/y", VDict [(KStr "get", VDict rules_operation)])].

Definition pet_schema : dict := [(KStr "properties", VDict [])].

Definition rules_schemas : dict := [(KStr "Pet", VDict pet_schema)].

Definition rules_components : dict := [(KStr "schemas", VDict rules_schemas)].

Definition rules_info : dict := [(KStr "title", VStr "T")].

(** A document that every rule has something to say about. *)
Definition rules_entries : dict :=
  [(KStr "openapi", VStr "2.0");
   (KStr "info", VDict rules_info);
   (KStr "paths", VDict rules_paths);
   (KStr "components", VDict rules_components);
   (KStr "security", VList [VDict [(KStr "api_key", VList [])]])].

Definition rules_warnings : list string :=
  ["LINT: OpenAPI version '2.0' is not 3.x";
   "LINT: Missing 'info.version'";
   "LINT: Missing 'info.description' (recommended)";
   "LINT: Path 'x' should start with '/'";
   "LINT: GET /y missing 'operationId'";
   "LINT: GET /y missing 'summary' or 'description'";
   "LINT: GET /y has no success (2xx) response";
   "LINT: Schema 'Pet' missing description (recommended)";
   "LINT: Schema 'Pet' has no type definition";
   "LINT: Security requirements defined but no securitySchemes in components";
   "LINT: No servers defined (recommended for clarity)"].

(** Paths whose items are all null. *)
Definition null_paths : dict := [(KStr "x", VNone); (KStr "/y", VNone)].

Definition null_paths_entries : dict := [(KStr "paths", VDict null_paths)].

Definition null_paths_warnings : list string :=
  ["LINT: Missing 'openapi' version field";
   "LINT: Missing 'info' section";
   "LINT: Path 'x' should start with '/'";
   "LINT: No servers defined (recommended for clarity)"].

Definition options_first_warnings : list string :=
  ["LINT: Missing 'openapi' version field";
   "LINT: Missing 'info' section";
   "LINT: GET /x missing 'operationId'";
   "LINT: GET /x missing 'summary' or 'description'";
   "LINT: GET /x response '200' missing description";
   "LINT: OPTIONS /x missing 'operationId'";
   "LINT: OPTIONS /x missing 'summary' or 'description'";
   "LINT: OPTIONS /x has no responses defined";
   "LINT: No servers defined (recommended for clarity)"].

Definition scenario_A_warnings : list string :=
  ["LINT: Missing 'openapi' version field";
   "LINT: Missing 'info' section";
   "LINT: No paths defined";
   "LINT: No servers defined (recommended for clarity)"].

(** A failure of the validator that is no conformance violation. *)
Definition timeout_failure : exn := Exn OtherException " timed out " None.

(** A run on a file without suffix whose YAML text is empty. *)
Definition empty_yaml_env : Env :=
  sample_env true true true "" (Ok VNone) (Ok scenario_A) None.

(** ** The warnings of the paths rule, entry by entry

    What each response, operation, method and schema contributes, written
    as lists; the theorems compare them with what [lint_spec] appends. *)

(** One response: a warning only for a mapping with entries whose
    [description] is missing or falsy. *)
Definition response_warnings (op_id : string) (entry : key * value)
  : list string :=
  match snd entry with
  | VDict (first :: rest) =>
      warn_if (falsy_entry (first :: rest) "description")
              ("LINT: " ++ op_id ++ " response '" ++ str_key (fst entry)
               ++ "' missing description")
  | _ => []
  end.

(** The success test of line 132-133 on a [responses] mapping. *)
Definition no_success (responses : dict) : bool :=
  negb (existsb (fun entry => startswith (str_key (fst entry)) "2") responses)
  && negb (contains responses "default").

(** The responses of one operation. *)
Definition responses_warnings (op_id : string) (op : dict) : list string :=
  match lookup op "responses" with
  | Some (VDict (first :: rest)) =>
      (warn_if (no_success (first :: rest))
               ("LINT: " ++ op_id ++ " has no success (2xx) response")
       ++ flat_map (response_warnings op_id) (first :: rest))%list
  | _ => ["LINT: " ++ op_id ++ " has no responses defined"]
  end.



(** One schema: nothing unless it is a mapping with entries. *)
Definition schema_warnings (entry : key * value) : list string :=
  match snd entry with
  | VDict (first :: rest) =>
      (warn_if (falsy_entry (first :: rest) "description")
               ("LINT: Schema '" ++ str_key (fst entry)
                ++ "' missing description (recommended)")
       ++ warn_if (forallb (fun n => falsy_entry (first :: rest) n)
                           ["type"; "$ref"; "allOf"; "oneOf"; "anyOf"])
                  ("LINT: Schema '" ++ str_key (fst entry)
                   ++ "' has no type definition"))%list
  | _ => []
  end.

(** Every key of every mapping in [v] is a string, as in what [json.loads]
    builds. *)
Fixpoint string_keyed (v : value) : bool :=
  match v with
  | VList items => forallb string_keyed items
  | VDict entries =>
      forallb (fun entry =>
                 match entry with
                 | (KStr _, x) => string_keyed x
                 | _ => false
                 end) entries
  | _ => true
  end.

(** ** [lint_spec] with its list object

    The same function with [warnings] as an object of the process: line 78
    makes a new list, every [warnings.append] changes that list in place,
    and line 163 returns it. The document is only read, by [get], [items],
    [keys], [startswith], [in] and [str]. *)

Declare Scope run_scope.

Module Stateful.

(** The list objects of the process, by address. *)
Definition Store : Type := list (list string).

(** A statement: its value or its exception, and the store it leaves. *)
Definition Run (A : Type) : Type := Store -> result A * Store.

Definition ret {A} (a : A) : Run A := fun st => (Ok a, st).

Definition bind {A B} (m : Run A) (f : A -> Run B) : Run B :=
  fun st =>
    match m st with
    | (Ok a, st') => f a st'
    | (Raise e, st') => (Raise e, st')
    end.

Notation "x <- m ;; k" := (bind m (fun x => k))
  (at level 61, m at next level, right associativity) : run_scope.
Notation "m ;; k" := (bind m (fun _ => k))
  (at level 61, right associativity) : run_scope.

Local Open Scope run_scope.

(** [[]]: a new, empty list object at the next free address. *)
Definition new_list : Run nat :=
  fun st => (Ok (length st), (st ++ [[]])%list).

(** The store with [w] added at the end of the list at [address]. *)
Fixpoint extend (address : nat) (w : list string) (st : Store) : Store :=
  match st, address with
  | [], _ => []
  | l :: rest, O => (l ++ w)%list :: rest
  | l :: rest, S n => l :: extend n w rest
  end.

(** [warnings.append(msg)] *)
Definition append (warnings : nat) (msg : string) : Run unit :=
  fun st => (Ok tt, extend warnings [msg] st).

(** An expression that reads the document and changes nothing. *)
Definition read {A} (m : Lint A) : Run A :=
  fun st =>
    match m with
    | Ok (a, _) => (Ok a, st)
    | Raise e => (Raise e, st)
    end.

Definition when (b : bool) (m : Run unit) : Run unit :=
  if b then m else ret tt.

(** [for x in l: body] *)
Fixpoint for_each {X} (l : list X) (body : X -> Run unit) : Run unit :=
  match l with
  | [] => ret tt
  | x :: rest => body x ;; for_each rest body
  end.

(** Lines 80-85. *)
Definition check_openapi_version (warnings : nat) (spec : value) : Run unit :=
  openapi_version <- read (py_get spec "openapi" (VStr "")) ;;
  if negb (truthy openapi_version) then
    append warnings "LINT: Missing 'openapi' version field"
  else
    s <- read (str_method openapi_version "startswith") ;;
    when (negb (startswith s "3."))
         (append warnings ("LINT: OpenAPI version '" ++ s ++ "' is not 3.x")).

(** Lines 87-97. *)
Definition check_info (warnings : nat) (spec : value) : Run unit :=
  info <- read (py_get spec "info" (VDict [])) ;;
  if negb (truthy info) then
    append warnings "LINT: Missing 'info' section"
  else
    title <- read (py_get info "title" VNone) ;;
    when (negb (truthy title)) (append warnings "LINT: Missing 'info.title'") ;;
    version <- read (py_get info "version" VNone) ;;
    when (negb (truthy version))
         (append warnings "LINT: Missing 'info.version'") ;;
    description <- read (py_get info "description" VNone) ;;
    when (negb (truthy description))
         (append warnings "LINT: Missing 'info.description' (recommended)").

(** Lines 137-139. *)
Definition check_response (warnings : nat) (op_id : string)
    (entry : key * value) : Run unit :=
  let '(code, response) := entry in
  if truthy response then
    description <- read (py_get response "description" VNone) ;;
    when (negb (truthy description))
         (append warnings
                 ("LINT: " ++ op_id ++ " response '" ++ str_key code
                  ++ "' missing description"))
  else ret tt.

(** Lines 126-139. *)
Definition check_responses (warnings : nat) (op_id : string)
    (operation : value) : Run unit :=
  responses <- read (py_get operation "responses" (VDict [])) ;;
  if negb (truthy responses) then
    append warnings ("LINT: " ++ op_id ++ " has no responses defined")
  else
    keys <- read (dict_method responses "keys") ;;
    let has_success :=
      existsb (fun entry => startswith (str_key (fst entry)) "2") keys in
    when (negb has_success && negb (contains keys "default"))
         (append warnings
                 ("LINT: " ++ op_id ++ " has no success (2xx) response")) ;;
    items <- read (dict_method responses "items") ;;
    for_each items (check_response warnings op_id).

(** Lines 116-139. *)
Definition check_operation (warnings : nat) (method path : string)
    (operation : value) : Run unit :=
  let op_id := upper method ++ " " ++ path in
  operationId <- read (py_get operation "operationId" VNone) ;;
  when (negb (truthy operationId))
       (append warnings ("LINT: " ++ op_id ++ " missing 'operationId'")) ;;
  undocumented <- read (none_truthy operation ["summary"; "description"]) ;;
  when undocumented
       (append warnings
               ("LINT: " ++ op_id ++ " missing 'summary' or 'description'")) ;;
  check_responses warnings op_id operation.

(** Lines 114-115. *)
Definition check_method (warnings : nat) (path : string) (path_item : value)
    (method : string) : Run unit :=
  operation <- read (py_get path_item method VNone) ;;
  if truthy operation then check_operation warnings method path operation
  else ret tt.

(** Lines 105-139. *)
Definition check_path (warnings : nat) (entry : key * value) : Run unit :=
  let '(path_key, path_item) := entry in
  path <- read (key_str_method path_key "startswith") ;;
  when (negb (startswith path "/"))
       (append warnings ("LINT: Path '" ++ path ++ "' should start with '/'")) ;;
  match path_item with
  | VNone => ret tt
  | _ => for_each methods (check_method warnings path path_item)
  end.

(** Lines 99-139. *)
Definition check_paths (warnings : nat) (spec : value) : Run unit :=
  paths <- read (py_get spec "paths" (VDict [])) ;;
  if negb (truthy paths) then
    append warnings "LINT: No paths defined"
  else
    items <- read (dict_method paths "items") ;;
    for_each items (check_path warnings).

(** Lines 145-150. *)
Definition check_schema (warnings : nat) (entry : key * value) : Run unit :=
  let '(schema_name, schema) := entry in
  (if truthy schema then
     description <- read (py_get schema "description" VNone) ;;
     when (negb (truthy description))
          (append warnings
                  ("LINT: Schema '" ++ str_key schema_name
                   ++ "' missing description (recommended)"))
   else ret tt) ;;
  if truthy schema then
    untyped <- read (none_truthy schema
                       ["type"; "$ref"; "allOf"; "oneOf"; "anyOf"]) ;;
    when untyped
         (append warnings
                 ("LINT: Schema '" ++ str_key schema_name
                  ++ "' has no type definition"))
  else ret tt.

(** Lines 80-161: the six rules, appending to [warnings]. *)
Definition rules (warnings : nat) (spec : value) : Run unit :=
  check_openapi_version warnings spec ;;
  check_info warnings spec ;;
  check_paths warnings spec ;;
  components <- read (py_get spec "components" (VDict [])) ;;
  schemas <- read (py_get components "schemas" (VDict [])) ;;
  items <- read (dict_method schemas "items") ;;
  for_each items (check_schema warnings) ;;
  security <- read (py_get spec "security" (VList [])) ;;
  security_schemes <- read (py_get components "securitySchemes" (VDict [])) ;;
  when (truthy security && negb (truthy security_schemes))
       (append warnings
               "LINT: Security requirements defined but no securitySchemes in components") ;;
  servers <- read (py_get spec "servers" (VList [])) ;;
  when (negb (truthy servers))
       (append warnings "LINT: No servers defined (recommended for clarity)").

(** Lines 76-163: [warnings = []], the rules, [return warnings]. *)
Definition lint_spec (spec : value) : Run nat :=
  warnings <- new_list ;;
  rules warnings spec ;;
  ret warnings.

(** What a returned list holds in the store [st]. *)
Definition contents (r : result nat) (st : Store) : result (list string) :=
  match r with
  | Ok address => Ok (nth address st [])
  | Raise e => Raise e
  end.

(** [first = lint_spec(spec); second = lint_spec(spec)], one call after the
    other in one process, and what the two results hold afterwards. *)
Definition lint_twice (spec : value) (st : Store)
  : result (list string) * result (list string) :=
  let '(first, st1) := lint_spec spec st in
  let '(second, st2) := lint_spec spec st1 in
  (contents first st2, contents second st2).

End Stateful.

(** The statement [mr], run with [warnings] at address [l], does what the
    computation [mp] says: the same value and the warnings of [mp] added to
    the list at [l], or the same exception. *)
Definition simulates {A} (l : nat) (mp : Lint A) (mr : Stateful.Run A) : Prop :=
  forall st : Stateful.Store,
    l < length st ->
    match mp with
    | Ok (a, w) => mr st = (Ok a, Stateful.extend l w st)
    | Raise e =>
        exists st', mr st = (Raise e, st') /\ length st' = length st
    end.

(** The computation appends no warning. *)
Definition silent {A} (m : Lint A) : Prop := emits (fun _ => False) m.

(** A run on a file that holds [components:] and nothing else. *)
Definition null_components_env : Env :=
  sample_env true true true ".json" (Ok null_components_document)
             (Ok null_components_document) None.

(** * Properties *)

(** ** The lint monad *)

Section LintMonad.

Context {A B : Type}.

Lemma bind_ok (m : Lint A) (f : A -> Lint B) (b : B) (w : list string) :
  bind m f = Ok (b, w) ->
  exists a w1 w2, m = Ok (a, w1) /\ f a = Ok (b, w2) /\ w = (w1 ++ w2)%list.
Proof.
  unfold bind. destruct m as [[a w1] | e]; [ | discriminate ].
  destruct (f a) as [[b' w2] | e] eqn:Hf; [ | discriminate ].
  intros H. injection H as <- <-. now exists a, w1, w2.
Qed.

Lemma bind_ret (a : A) (f : A -> Lint B) :
  bind (ret a) f = f a.
Proof.
  unfold bind, ret. destruct (f a) as [[b w] | e]; reflexivity.
Qed.

End LintMonad.

Lemma within_refl (w : list string) : within w w.
Proof. exists [], []. simpl. now rewrite app_nil_r. Qed.

Lemma within_trans (a b c : list string) :
  within a b -> within b c -> within a c.
Proof.
  intros (p1 & q1 & ->) (p2 & q2 & ->).
  exists (p2 ++ p1)%list, (q1 ++ q2)%list.
  now rewrite <- !app_assoc.
Qed.

Lemma within_app_l (w rest : list string) : within w (w ++ rest).
Proof. now exists [], rest. Qed.

Lemma within_app_r (w before : list string) : within w (before ++ w).
Proof. exists before, []. now rewrite app_nil_r. Qed.

Lemma within_In (x : string) (w ws : list string) :
  In x w -> within w ws -> In x ws.
Proof.
  intros Hx (p & q & ->). apply in_or_app. right. apply in_or_app. now left.
Qed.

Section ForEach.

Context {X : Type} (body : X -> Lint unit).

Lemma for_each_app (l1 l2 : list X) (u : unit) (w : list string) :
  for_each (l1 ++ l2) body = Ok (u, w) ->
  exists w1 w2,
    for_each l1 body = Ok (tt, w1) /\ for_each l2 body = Ok (tt, w2)
    /\ w = (w1 ++ w2)%list.
Proof.
  revert u w. induction l1 as [ | x l1 IH ]; intros u w H; simpl in *.
  - destruct u. now exists [], w.
  - apply bind_ok in H as ([] & wx & wr & Hx & Hr & ->).
    apply IH in Hr as (w1 & w2 & H1 & H2 & ->).
    exists (wx ++ w1)%list, w2. rewrite Hx, H1. simpl.
    repeat split; auto. now rewrite app_assoc.
Qed.

Lemma for_each_cons (x : X) (l : list X) (u : unit) (w : list string) :
  for_each (x :: l) body = Ok (u, w) ->
  exists wx wl,
    body x = Ok (tt, wx) /\ for_each l body = Ok (tt, wl)
    /\ w = (wx ++ wl)%list.
Proof.
  simpl. intros H. apply bind_ok in H as ([] & wx & wl & Hx & Hl & ->).
  destruct u. now exists wx, wl.
Qed.

(** Each round of a loop that finished contributed one block. *)
Lemma for_each_In (x : X) (l : list X) (u : unit) (w : list string) :
  for_each l body = Ok (u, w) -> In x l ->
  exists wx, body x = Ok (tt, wx) /\ within wx w.
Proof.
  intros H Hin. apply in_split in Hin as (l1 & l2 & ->).
  apply for_each_app in H as (w1 & w2 & _ & H2 & ->).
  apply for_each_cons in H2 as (wx & wl & Hx & _ & ->).
  exists wx. split; [ exact Hx | now exists w1, wl ].
Qed.


End ForEach.

(** ** Where the traversal of [lint_spec] goes *)

Lemma warnings_of_ok (m : Lint unit) (ws : list string) :
  warnings_of m = Ok ws -> m = Ok (tt, ws).
Proof.
  destruct m as [[[] w] | e]; simpl; [ | discriminate ].
  intros H. now injection H as ->.
Qed.

Lemma truthy_dict (d : dict) : d <> [] -> truthy (VDict d) = true.
Proof. destruct d; [ congruence | reflexivity ]. Qed.

(** A run of [lint_spec] that returns has run the paths rule. *)
Lemma lint_spec_paths (spec : value) (ws : list string) :
  lint_spec spec = Ok ws ->
  exists w, check_paths spec = Ok (tt, w) /\ within w ws.
Proof.
  unfold lint_spec. intros H. apply warnings_of_ok in H.
  apply bind_ok in H as (_ & w1 & r1 & _ & H & ->).
  apply bind_ok in H as (_ & w2 & r2 & _ & H & ->).
  apply bind_ok in H as ([] & w3 & r3 & Hp & _ & ->).
  exists w3. split; [ exact Hp | ].
  exists (w1 ++ w2)%list, r3. now rewrite <- !app_assoc.
Qed.

(** The paths rule visits every entry of a [paths] mapping. *)
Lemma check_paths_entry (d paths : dict) (entry : key * value)
    (w : list string) :
  check_paths (VDict d) = Ok (tt, w) ->
  lookup d "paths" = Some (VDict paths) ->
  In entry paths ->
  exists we, check_path entry = Ok (tt, we) /\ within we w.
Proof.
  unfold check_paths, py_get. simpl dict_method. rewrite bind_ret.
  intros H Hl Hin. rewrite Hl, bind_ret in H.
  rewrite truthy_dict in H by (intros ->; contradiction).
  cbn [negb dict_method] in H. rewrite bind_ret in H.
  now apply for_each_In with (x := entry) in H.
Qed.

(** A path whose item is a mapping gets one round per method. *)
Lemma check_path_methods (p : string) (item : dict) (w : list string) :
  check_path (KStr p, VDict item) = Ok (tt, w) ->
  exists wm,
    for_each methods (check_method p (VDict item)) = Ok (tt, wm)
    /\ within wm w.
Proof.
  unfold check_path. simpl key_str_method. rewrite bind_ret.
  intros H. apply bind_ok in H as ([] & w1 & wm & _ & Hm & ->).
  exists wm. split; [ exact Hm | apply within_app_r ].
Qed.

(** A method stored with a non-empty mapping is checked as an operation. *)
Lemma check_method_operation (p m : string) (item op : dict) :
  lookup item m = Some (VDict op) -> op <> [] ->
  check_method p (VDict item) m = check_operation m p (VDict op).
Proof.
  intros Hl Hne. unfold check_method, py_get. simpl dict_method.
  rewrite !bind_ret, Hl. now rewrite truthy_dict.
Qed.

(** Every operation of the document is checked, and its warnings are a
    block of the output. *)
Lemma lint_spec_operation (d paths item op : dict) (p m : string)
    (ws : list string) :
  lint_spec (VDict d) = Ok ws ->
  lookup d "paths" = Some (VDict paths) ->
  In (KStr p, VDict item) paths ->
  In m methods ->
  lookup item m = Some (VDict op) -> op <> [] ->
  exists w, check_operation m p (VDict op) = Ok (tt, w) /\ within w ws.
Proof.
  intros H Hp Hin Hm Hop Hne.
  apply lint_spec_paths in H as (w1 & H1 & Hw1).
  eapply check_paths_entry in H1 as (w2 & H2 & Hw2); eauto.
  apply check_path_methods in H2 as (w3 & H3 & Hw3).
  eapply for_each_In in H3 as (w4 & H4 & Hw4); eauto.
  rewrite (check_method_operation _ _ _ _ Hop Hne) in H4.
  exists w4. split; [ exact H4 | ].
  eauto using within_trans.
Qed.

(** The warnings of one operation: the identifier checks, then the block
    of its responses. *)
Lemma check_operation_blocks (m p : string) (op : dict) (w : list string) :
  check_operation m p (VDict op) = Ok (tt, w) ->
  exists wr,
    check_responses (op_id_of m p) (VDict op) = Ok (tt, wr)
    /\ w = (warn_if (falsy_entry op "operationId")
                    ("LINT: " ++ op_id_of m p ++ " missing 'operationId'")
            ++ warn_if (falsy_entry op "summary"
                        && falsy_entry op "description")
                       ("LINT: " ++ op_id_of m p
                        ++ " missing 'summary' or 'description'")
            ++ wr)%list.
Proof.
  unfold check_operation, none_truthy, py_get, falsy_entry.
  simpl dict_method. rewrite !bind_ret. fold (op_id_of m p).
  intros H.
  apply bind_ok in H as ([] & w1 & r1 & H1 & H & ->).
  apply bind_ok in H as (und & w2 & r2 & H2 & H & ->).
  apply bind_ok in H as ([] & w3 & wr & H3 & H & ->).
  exists wr. split; [ exact H | ].
  destruct (truthy (match lookup op "operationId" with
                    | Some x => x | None => VNone end));
    simpl in H1; injection H1 as <-;
    destruct (truthy (match lookup op "summary" with
                      | Some x => x | None => VNone end));
    simpl in H2; [ injection H2 as <- <- | | injection H2 as <- <- | ];
    try (rewrite bind_ret in H2);
    try (destruct (truthy (match lookup op "description" with
                           | Some x => x | None => VNone end));
         simpl in H2; injection H2 as <- <-);
    simpl in H3; injection H3 as <-; reflexivity.
Qed.

(** The responses block visits every entry of a [responses] mapping. *)
Lemma check_responses_entry (op_id : string) (op responses : dict)
    (entry : key * value) (wr : list string) :
  check_responses op_id (VDict op) = Ok (tt, wr) ->
  lookup op "responses" = Some (VDict responses) ->
  In entry responses ->
  exists we, check_response op_id entry = Ok (tt, we) /\ within we wr.
Proof.
  unfold check_responses, py_get. simpl dict_method. rewrite bind_ret.
  intros H Hl Hin. rewrite Hl, bind_ret in H.
  rewrite truthy_dict in H by (intros ->; contradiction).
  cbn [negb dict_method] in H. rewrite bind_ret in H.
  apply bind_ok in H as ([] & w1 & w2 & _ & H & ->).
  rewrite bind_ret in H.
  eapply for_each_In in H as (we & He & Hw); eauto.
  exists we. split; [ exact He | ].
  eapply within_trans; [ exact Hw | apply within_app_r ].
Qed.

(** A response that is a non-empty mapping without [description] is
    reported. *)
Lemma check_response_missing (op_id : string) (code : key) (response : dict) :
  response <> [] -> lookup response "description" = None ->
  check_response op_id (code, VDict response)
  = Ok (tt, ["LINT: " ++ op_id ++ " response '" ++ str_key code
             ++ "' missing description"]).
Proof.
  intros Hne Hl. unfold check_response, py_get.
  rewrite truthy_dict by assumption.
  simpl dict_method. rewrite !bind_ret, Hl. reflexivity.
Qed.

(** ** The rules on sample documents *)

(** C8: linting the empty mapping gives, in this order, the warnings for
    the missing version, the missing info section, no paths and no servers,
    and nothing else: the schema and security rules stay silent. *)
Theorem lint_spec_empty_document :
  lint_spec scenario_A
  = Ok ["LINT: Missing 'openapi' version field";
        "LINT: Missing 'info' section";
        "LINT: No paths defined";
        "LINT: No servers defined (recommended for clarity)"].
Proof. reflexivity. Qed.



(** ** Operations *)


(** The operations of a path are reported in the order of the method list,
    not in the order of the document. *)
Example options_first_document_order :
  lint_spec options_first_document
  = Ok ["LINT: Missing 'openapi' version field";
        "LINT: Missing 'info' section";
        "LINT: GET /x missing 'operationId'";
        "LINT: GET /x missing 'summary' or 'description'";
        "LINT: GET /x response '200' missing description";
        "LINT: OPTIONS /x missing 'operationId'";
        "LINT: OPTIONS /x missing 'summary' or 'description'";
        "LINT: OPTIONS /x has no responses defined";
        "LINT: No servers defined (recommended for clarity)"].
Proof. reflexivity. Qed.

(** ** Exceptions of the linter *)

(** C3 fails on the code: on each of the three shapes the claim names, a
    null [components], an [openapi] that is no string and a path item that
    is no mapping, [lint_spec] raises AttributeError and returns no
    warnings. *)
Theorem lint_spec_raises_on_unexpected_shapes :
  lint_spec null_components_document
  = Raise (attribute_error "NoneType" "get")
  /\ lint_spec integer_version_document
     = Raise (attribute_error "int" "startswith")
  /\ lint_spec string_path_item_document
     = Raise (attribute_error "str" "get").
Proof. repeat split; reflexivity. Qed.

(** ** The conformance checker *)

(** C5, as stated, fails: the validator raises an exception whose text is
    blank, [validate_schema] records no finding for it, and the report
    calls the document valid. *)
Lemma blank_failure_suppressed :
  let env := sample_env true true true ".json" (Ok scenario_A)
                        (Ok scenario_A) (Some blank_failure) in
  validate_schema env "api.json" = []
  /\ valid (run env (sample_args false true)) = true.
Proof. split; reflexivity. Qed.

(** C5, amended: a conformance violation raised by the validator is recorded
    as one finding, its [message] (or its text when it has no such
    attribute) prefixed "SCHEMA ERROR: "; any other exception whose trimmed
    text is not empty is recorded as one finding, the trimmed text prefixed
    "ERROR: "; any other exception whose text is empty or blank records no
    finding. *)
Theorem validate_schema_failure (env : Env) (file_path : string) (e : exn) :
  VALIDATOR_AVAILABLE env = true ->
  validate env file_path = Some e ->
  (exn_class_of e = OpenAPIValidationError ->
   validate_schema env file_path
   = ["SCHEMA ERROR: " ++ match exn_message e with
                          | Some message => message
                          | None => exn_str e
                          end])
  /\ (exn_class_of e <> OpenAPIValidationError ->
      strip (exn_str e) <> "" ->
      validate_schema env file_path = ["ERROR: " ++ strip (exn_str e)])
  /\ (exn_class_of e <> OpenAPIValidationError ->
      strip (exn_str e) = "" ->
      validate_schema env file_path = []).
Proof.
  intros Ha He. unfold validate_schema. rewrite Ha, He. simpl.
  repeat split.
  - intros ->. reflexivity.
  - intros Hc Hs. apply String.eqb_neq in Hs.
    destruct (exn_class_of e); try congruence; now rewrite Hs.
  - intros Hc Hs.
    destruct (exn_class_of e); try congruence; now rewrite Hs.
Qed.

Lemma validate_schema_failure_witness :
  validate_schema
    (sample_env true true true ".json" (Ok scenario_A) (Ok scenario_A)
                (Some info_violation))
    "api.json"
  = ["SCHEMA ERROR: 'info' is a required property"].
Proof.
  refine (proj1 (validate_schema_failure
            (sample_env true true true ".json" (Ok scenario_A) (Ok scenario_A)
                        (Some info_violation))
            "api.json" info_violation _ _) _); reflexivity.
Defined.

(** C4, as stated, fails: with the validator missing and a document that
    loads and lints, the one finding of [validate_schema] makes the report
    invalid and the exit status 1. *)
Lemma validator_missing_marks_invalid :
  let env := sample_env true false true ".json" (Ok scenario_A)
                        (Ok scenario_A) None in
  validate_schema env "api.json" = [validator_missing]
  /\ valid (run env (sample_args false false)) = false
  /\ main env (sample_args false false) = 1%Z.
Proof. repeat split; reflexivity. Qed.

(** C4, amended: when the validator is not installed, [validate_schema]
    returns exactly one finding, the message that it is missing and how to
    install it, and [main] treats it as any conformance error: unless
    --lint-only is given, the report of a document that loads is invalid
    and the exit status is 1; the finding is the only conformance error of
    the report when the lint phase is skipped or returns. *)
Theorem validator_unavailable (env : Env) (args : Args) (spec : value) :
  VALIDATOR_AVAILABLE env = false ->
  load_spec env (spec_file args) = Ok spec ->
  lint_only args = false ->
  validate_schema env (spec_file args) = [validator_missing]
  /\ valid (run env args) = false
  /\ main env args = 1%Z
  /\ (schema_only args = true \/ (exists ws, lint_spec spec = Ok ws) ->
      schema_errors (run env args) = [validator_missing]).
Proof.
  intros Ha Hl Hlo.
  assert (Hv : validate_schema env (spec_file args) = [validator_missing])
    by (unfold validate_schema; now rewrite Ha).
  assert (Hr : valid (run env args) = false).
  { unfold run, try_body, schema_phase. rewrite Hl, Hlo. simpl.
    rewrite Hv. simpl.
    destruct (schema_only args); simpl; [ reflexivity | ].
    destruct (lint_spec spec) as [ws | e]; [ reflexivity | ].
    unfold handle. destruct (exn_class_of e); reflexivity. }
  repeat split; auto.
  - unfold main, exit_code. now rewrite Hr.
  - intros Hs. unfold run, try_body, schema_phase. rewrite Hl, Hlo. simpl.
    rewrite Hv. simpl.
    destruct (schema_only args); simpl; [ reflexivity | ].
    destruct Hs as [Hs | (ws & Hs)]; [ discriminate | ].
    now rewrite Hs.
Qed.

Lemma validator_unavailable_witness :
  let env := sample_env true false true ".json" (Ok scenario_A)
                        (Ok scenario_A) None in
  validate_schema env "api.json" = [validator_missing]
  /\ valid (run env (sample_args false false)) = false
  /\ main env (sample_args false false) = 1%Z
  /\ (false = true \/ (exists ws, lint_spec scenario_A = Ok ws) ->
      schema_errors (run env (sample_args false false)) = [validator_missing]).
Proof.
  apply (validator_unavailable
           (sample_env true false true ".json" (Ok scenario_A)
                       (Ok scenario_A) None)
           (sample_args false false) scenario_A); reflexivity.
Defined.

(** ** The report *)

Lemma completes_loads (env : Env) (args : Args) :
  completes env args ->
  exists spec,
    load_spec env (spec_file args) = Ok spec
    /\ (schema_only args = true \/ exists ws, lint_spec spec = Ok ws).
Proof.
  unfold completes, try_body.
  destruct (load_spec env (spec_file args)) as [spec | e];
    [ | discriminate ].
  intros H. exists spec. split; [ reflexivity | ].
  destruct (schema_only args); simpl in H; [ now left | right ].
  destruct (lint_spec spec) as [ws | e]; [ now exists ws | discriminate ].
Qed.

Lemma nonempty_false {A : Type} (l : list A) : nonempty l = false <-> l = [].
Proof. destruct l; simpl; split; congruence. Qed.

(** The report of a run that went through the [try] body. *)
Lemma run_completes (env : Env) (args : Args) :
  completes env args ->
  exists spec,
    load_spec env (spec_file args) = Ok spec
    /\ run env args
       = let results := schema_phase env args (initial_results args) in
         if schema_only args then results
         else match lint_spec spec with
              | Ok ws => set_lint_warnings ws results
              | Raise _ => results
              end.
Proof.
  intros H. destruct (completes_loads _ _ H) as (spec & Hl & Hs).
  exists spec. split; [ exact Hl | ].
  unfold run, try_body. rewrite Hl.
  destruct (schema_only args); simpl; [ reflexivity | ].
  destruct Hs as [Hs | (ws & Hs)]; [ discriminate | ].
  now rewrite Hs.
Qed.

(** In a run that goes through both phases without an exception, the
    report is valid exactly when the conformance phase was skipped
    (--lint-only) or found no error; the conformance errors are those of
    the phase, or none when it was skipped; the lint warnings are those of
    the linter, or none when it was skipped, and have no part in [valid];
    with both --lint-only and --schema-only the report is valid with no
    conformance error and no lint warning. *)
Theorem report_validity (env : Env) (args : Args) :
  completes env args ->
  (valid (run env args) = true <->
   lint_only args = true \/ validate_schema env (spec_file args) = [])
  /\ schema_errors (run env args)
     = (if lint_only args then []
        else validate_schema env (spec_file args))
  /\ (schema_only args = true -> lint_warnings (run env args) = [])
  /\ (schema_only args = false ->
      exists spec,
        load_spec env (spec_file args) = Ok spec
        /\ lint_spec spec = Ok (lint_warnings (run env args)))
  /\ (forall env' : Env,
        completes env' args ->
        validate_schema env' (spec_file args)
        = validate_schema env (spec_file args) ->
        valid (run env' args) = valid (run env args))
  /\ (lint_only args = true -> schema_only args = true ->
      run env args = initial_results args).
Proof.
  intros H.
  assert (Hvalid : forall env0, completes env0 args ->
            valid (run env0 args)
            = lint_only args
              || negb (nonempty (validate_schema env0 (spec_file args)))).
  { intros env0 H0. destruct (run_completes _ _ H0) as (spec & _ & ->).
    unfold schema_phase. cbv zeta.
    destruct (lint_only args); simpl;
      destruct (nonempty (validate_schema env0 (spec_file args)));
      destruct (schema_only args); simpl;
      try reflexivity;
      destruct (lint_spec spec); reflexivity. }
  destruct (run_completes _ _ H) as (spec & Hl & Hrun).
  destruct (completes_loads _ _ H) as (spec' & Hl' & Hs).
  rewrite Hl in Hl'. injection Hl' as <-.
  split; [ | split; [ | split; [ | split; [ | split ] ] ] ].
  - rewrite (Hvalid env H). rewrite orb_true_iff, negb_true_iff.
    now rewrite nonempty_false.
  - rewrite Hrun. unfold schema_phase. cbv zeta.
    destruct (lint_only args); simpl;
      [ | destruct (nonempty (validate_schema env (spec_file args))) ];
      destruct (schema_only args); simpl; try reflexivity;
      destruct (lint_spec spec); reflexivity.
  - intros Hso. rewrite Hrun, Hso. unfold schema_phase. cbv zeta.
    destruct (lint_only args); simpl; [ reflexivity | ].
    destruct (nonempty (validate_schema env (spec_file args))); reflexivity.
  - intros Hso. exists spec. split; [ exact Hl | ].
    destruct Hs as [Hs | (ws & Hs)]; [ congruence | ].
    rewrite Hrun, Hso, Hs. reflexivity.
  - intros env' H' Heq. rewrite (Hvalid env' H'), (Hvalid env H).
    now rewrite Heq.
  - intros Hlo Hso. rewrite Hrun, Hso. unfold schema_phase.
    now rewrite Hlo.
Qed.

Lemma report_validity_witness :
  let env := sample_env true true true ".json" (Ok scenario_B)
                        (Ok scenario_B) (Some info_violation) in
  run env (sample_args true true) = initial_results (sample_args true true).
Proof.
  refine (proj2 (proj2 (proj2 (proj2 (proj2
            (report_validity
               (sample_env true true true ".json" (Ok scenario_B)
                           (Ok scenario_B) (Some info_violation))
               (sample_args true true) _))))) _ _); reflexivity.
Defined.

(** C7: when the file is missing or cannot be loaded, whatever the mode
    flags, the report is invalid, its only conformance error describes the
    failure, it has no lint warning, and the exit status is 1. *)
Theorem load_failure_report (env : Env) (args : Args) :
  path_exists env (spec_file args) = false
  \/ (exists e, load_spec env (spec_file args) = Raise e) ->
  exists e,
    load_spec env (spec_file args) = Raise e
    /\ run env args
       = {| file := spec_file args; valid := false;
            schema_errors := [failure_entry e]; lint_warnings := [] |}
    /\ main env args = 1%Z
    /\ (path_exists env (spec_file args) = false ->
        failure_entry e = "File not found: " ++ spec_file args).
Proof.
  intros H.
  assert (He : exists e, load_spec env (spec_file args) = Raise e
                         /\ (path_exists env (spec_file args) = false ->
                             failure_entry e
                             = "File not found: " ++ spec_file args)).
  { destruct (path_exists env (spec_file args)) eqn:Hex.
    - destruct H as [H | (e & H)]; [ discriminate | ].
      exists e. split; [ exact H | discriminate ].
    - eexists. unfold load_spec. rewrite Hex. simpl.
      split; [ reflexivity | reflexivity ]. }
  destruct He as (e & He & Hmsg). exists e.
  assert (Hrun : run env args
                 = {| file := spec_file args; valid := false;
                      schema_errors := [failure_entry e];
                      lint_warnings := [] |}).
  { unfold run, try_body. rewrite He. unfold handle, failure_entry.
    destruct (exn_class_of e); reflexivity. }
  repeat split; auto.
  unfold main. now rewrite Hrun.
Qed.

Lemma load_failure_report_witness :
  exists e,
    load_spec (sample_env true true false ".yaml" (Ok scenario_A)
                          (Ok scenario_A) None) "api.json" = Raise e
    /\ run (sample_env true true false ".yaml" (Ok scenario_A)
                       (Ok scenario_A) None) (sample_args true false)
       = {| file := "api.json"; valid := false;
            schema_errors := [failure_entry e]; lint_warnings := [] |}
    /\ main (sample_env true true false ".yaml" (Ok scenario_A)
                        (Ok scenario_A) None) (sample_args true false) = 1%Z
    /\ (false = false -> failure_entry e = "File not found: api.json").
Proof.
  apply (load_failure_report
           (sample_env true true false ".yaml" (Ok scenario_A)
                       (Ok scenario_A) None)
           (sample_args true false)).
  left. reflexivity.
Defined.

(** ** The loader *)

(** The conformance checker does not depend on the YAML parser. *)
Lemma validate_schema_with_yaml (b : bool) (env : Env) (file_path : string) :
  validate_schema (with_yaml b env) file_path = validate_schema env file_path.
Proof. reflexivity. Qed.

(** The report is determined by what the loader returns. *)
Lemma run_same_load (env env' : Env) (args : Args) :
  load_spec env' (spec_file args) = load_spec env (spec_file args) ->
  validate_schema env' (spec_file args) = validate_schema env (spec_file args) ->
  run env' args = run env args.
Proof.
  intros Hl Hv. unfold run, try_body, schema_phase. now rewrite Hl, Hv.
Qed.

(** C10: for a file that exists, reads, and has none of the suffixes .yaml,
    .yml and .json, a run without the YAML parser returns what [json.loads]
    returns, the document or the JSON parse error, and nothing else; the
    loader's outcome and the whole report are those of a run in which the
    YAML parser is present and rejects the content. *)
Theorem load_spec_without_yaml (env : Env) (file_path content : string) :
  YAML_AVAILABLE env = false ->
  path_exists env file_path = true ->
  read_text env file_path = Ok content ->
  suffix env file_path <> ".yaml" ->
  suffix env file_path <> ".yml" ->
  suffix env file_path <> ".json" ->
  load_spec env file_path = json_loads env content
  /\ (forall e : exn,
        yaml_safe_load env content = Raise e ->
        exn_class_of e = YAMLError ->
        load_spec (with_yaml true env) file_path = load_spec env file_path
        /\ forall args : Args,
             spec_file args = file_path ->
             run (with_yaml true env) args = run env args).
Proof.
  intros Hy Hex Hrd H1 H2 H3.
  apply String.eqb_neq in H1, H2, H3.
  assert (Hload : load_spec env file_path = json_loads env content).
  { unfold load_spec. now rewrite Hex, Hrd, H1, H2, H3, Hy. }
  split; [ exact Hload | ].
  intros e He Hc.
  assert (Hload' : load_spec (with_yaml true env) file_path
                   = load_spec env file_path).
  { rewrite Hload. unfold load_spec. simpl.
    now rewrite Hex, Hrd, H1, H2, H3, He, Hc. }
  split; [ exact Hload' | ].
  intros args <-. apply run_same_load; [ exact Hload' | reflexivity ].
Qed.

Lemma load_spec_without_yaml_witness :
  let env := sample_env false true true ""
               (Raise (Exn YAMLError "mapping values are not allowed here" None))
               (Ok scenario_A) None in
  load_spec env "openapi" = Ok scenario_A
  /\ (forall e : exn,
        yaml_safe_load env "content" = Raise e ->
        exn_class_of e = YAMLError ->
        load_spec (with_yaml true env) "openapi" = load_spec env "openapi"
        /\ forall args : Args,
             spec_file args = "openapi" ->
             run (with_yaml true env) args = run env args).
Proof.
  apply (load_spec_without_yaml
           (sample_env false true true ""
              (Raise (Exn YAMLError "mapping values are not allowed here" None))
              (Ok scenario_A) None)
           "openapi" "content");
    solve [ reflexivity | discriminate ].
Defined.
(** ** When the linter returns *)

Lemma forallb_ext {X} (f g : X -> bool) (l : list X) :
  (forall x, f x = g x) -> forallb f l = forallb g l.
Proof.
  intros H. induction l as [ | x l IH ]; simpl; [ reflexivity | ].
  now rewrite H, IH.
Qed.

Lemma returns_bind {A B} (m : Lint A) (f : A -> Lint B) :
  returns (bind m f)
  = match m with Ok (a, _) => returns (f a) | Raise _ => false end.
Proof.
  unfold bind. destruct m as [[a w] | e]; [ | reflexivity ].
  destruct (f a) as [[b w'] | e]; reflexivity.
Qed.

Lemma returns_for_each {X} (body : X -> Lint unit) (l : list X) :
  returns (for_each l body) = forallb (fun x => returns (body x)) l.
Proof.
  induction l as [ | x l IH ]; simpl; [ reflexivity | ].
  rewrite returns_bind.
  destruct (body x) as [[[] w] | e]; simpl; [ exact IH | reflexivity ].
Qed.

Lemma returns_when {B} (b : bool) (msg : string) (k : Lint B) :
  returns (when b (append msg) ;; k) = returns k.
Proof. rewrite returns_bind. destruct b; reflexivity. Qed.

Lemma returns_when_last (b : bool) (msg : string) :
  returns (when b (append msg)) = true.
Proof. destruct b; reflexivity. Qed.

Lemma py_get_dict (d : dict) (name : string) (default : value) :
  py_get (VDict d) name default
  = ret (match lookup d name with Some x => x | None => default end).
Proof. reflexivity. Qed.

Lemma none_truthy_dict (d : dict) (names : list string) :
  exists b, none_truthy (VDict d) names = Ok (b, []).
Proof.
  induction names as [ | n names (b & IH) ]; cbn [none_truthy].
  - now exists true.
  - rewrite py_get_dict, bind_ret.
    destruct (truthy _); [ now exists false | now exists b ].
Qed.

(** A guarded access [if v: v.get(...)] returns exactly on the falsy values
    and on the mappings. *)
Lemma returns_guarded (v : value) (name : string) (k : value -> Lint unit) :
  (forall x, returns (k x) = true) ->
  returns (if truthy v then x <- py_get v name VNone ;; k x else ret tt)
  = mapping_or_falsy v.
Proof.
  intros Hk.
  destruct v as [ | b | n | r | s | l | d ]; unfold mapping_or_falsy;
    try (unfold py_get; cbn [dict_method bind raise];
         destruct (truthy _); reflexivity).
  destruct (truthy (VDict d)); [ | reflexivity ].
  rewrite py_get_dict, bind_ret. apply Hk.
Qed.

Lemma returns_check_response (op_id : string) (entry : key * value) :
  returns (check_response op_id entry) = mapping_or_falsy (snd entry).
Proof.
  destruct entry as [code response]. unfold check_response. cbn [snd].
  apply returns_guarded. intros x. apply returns_when_last.
Qed.

Lemma returns_check_responses (op_id : string) (op : dict) :
  returns (check_responses op_id (VDict op))
  = entry_ok op "responses" shaped_responses.
Proof.
  unfold check_responses, entry_ok. rewrite py_get_dict, bind_ret.
  destruct (lookup op "responses") as [ [ | b | n | r | s | l | d ] | ];
    unfold shaped_responses;
    try (cbn [dict_method bind raise]; destruct (truthy _); reflexivity);
    try reflexivity.
  destruct d as [ | entry d ]; [ reflexivity | ].
  cbn [truthy negb dict_method]. rewrite bind_ret, returns_when, bind_ret.
  rewrite returns_for_each. apply forallb_ext.
  intros e. apply returns_check_response.
Qed.

Lemma returns_check_operation (m p : string) (op : dict) :
  returns (check_operation m p (VDict op))
  = entry_ok op "responses" shaped_responses.
Proof.
  unfold check_operation. rewrite py_get_dict, bind_ret, returns_when.
  destruct (none_truthy_dict op ["summary"; "description"]) as (b & ->).
  rewrite returns_bind, returns_when. apply returns_check_responses.
Qed.

Lemma returns_check_method (p : string) (item : dict) (m : string) :
  returns (check_method p (VDict item) m) = entry_ok item m shaped_operation.
Proof.
  unfold check_method, entry_ok. rewrite py_get_dict, bind_ret.
  destruct (lookup item m) as [ [ | b | n | r | s | l | d ] | ];
    unfold shaped_operation;
    try (unfold check_operation, py_get; cbn [dict_method bind raise];
         destruct (truthy _); reflexivity);
    try reflexivity.
  destruct d as [ | entry d ]; [ reflexivity | ].
  apply returns_check_operation.
Qed.

Lemma returns_check_path (entry : key * value) :
  returns (check_path entry) = shaped_path entry.
Proof.
  destruct entry as [[ | b | n | r | p ] item]; try reflexivity.
  unfold check_path, shaped_path. cbn [key_str_method fst snd].
  rewrite bind_ret, returns_when.
  destruct item as [ | b | n | r | s | l | d ]; try reflexivity.
  unfold shaped_path_item. rewrite returns_for_each.
  apply forallb_ext. intros m. apply returns_check_method.
Qed.

Lemma returns_check_paths (d : dict) :
  returns (check_paths (VDict d)) = entry_ok d "paths" shaped_paths.
Proof.
  unfold check_paths, entry_ok. rewrite py_get_dict, bind_ret.
  destruct (lookup d "paths") as [ [ | b | n | r | s | l | ps ] | ];
    unfold shaped_paths;
    try (cbn [dict_method bind raise]; destruct (truthy _); reflexivity);
    try reflexivity.
  destruct ps as [ | entry ps ]; [ reflexivity | ].
  cbn [truthy negb dict_method]. rewrite bind_ret, returns_for_each.
  apply forallb_ext. intros e. apply returns_check_path.
Qed.

Lemma returns_check_openapi_version (d : dict) :
  returns (check_openapi_version (VDict d))
  = entry_ok d "openapi" shaped_version.
Proof.
  unfold check_openapi_version, entry_ok. rewrite py_get_dict, bind_ret.
  destruct (lookup d "openapi") as [ [ | b | n | r | s | l | ps ] | ];
    unfold shaped_version;
    try (cbn [str_method bind raise]; destruct (truthy _); reflexivity);
    try reflexivity.
  cbn [str_method]. rewrite bind_ret.
  destruct (truthy (VStr s)); cbn [negb]; [ | reflexivity ].
  apply returns_when_last.
Qed.

Lemma returns_check_info (d : dict) :
  returns (check_info (VDict d)) = entry_ok d "info" mapping_or_falsy.
Proof.
  unfold check_info, entry_ok. rewrite py_get_dict, bind_ret.
  destruct (lookup d "info") as [ [ | b | n | r | s | l | ps ] | ];
    unfold mapping_or_falsy;
    try (unfold py_get; cbn [dict_method bind raise];
         destruct (truthy _); reflexivity);
    try reflexivity.
  destruct ps as [ | entry ps ]; [ reflexivity | ].
  cbn [truthy negb].
  rewrite py_get_dict, bind_ret, returns_when.
  rewrite py_get_dict, bind_ret, returns_when.
  rewrite py_get_dict, bind_ret. apply returns_when_last.
Qed.

Lemma returns_check_schema (entry : key * value) :
  returns (check_schema entry) = mapping_or_falsy (snd entry).
Proof.
  destruct entry as [name schema]. unfold check_schema. cbn [snd].
  rewrite returns_bind.
  destruct schema as [ | b | n | r | s | l | d ]; unfold mapping_or_falsy;
    try (unfold py_get; cbn [dict_method bind raise];
         destruct (truthy _); reflexivity).
  destruct d as [ | e d ]; [ reflexivity | ].
  cbn [truthy]. rewrite py_get_dict, bind_ret.
  destruct (none_truthy_dict (e :: d) ["type"; "$ref"; "allOf"; "oneOf"; "anyOf"])
    as (b & ->).
  rewrite returns_bind.
  destruct (negb (truthy _)); cbn [when append ret]; apply returns_when_last.
Qed.

Lemma returns_then {A B} (m : Lint A) (k : Lint B) :
  returns (m ;; k) = returns m && returns k.
Proof. rewrite returns_bind. now destruct m as [[a w] | e]. Qed.

Lemma returns_tail (d c : dict) :
  returns
    (security <- py_get (VDict d) "security" (VList []) ;;
     security_schemes <- py_get (VDict c) "securitySchemes" (VDict []) ;;
     when (truthy security && negb (truthy security_schemes))
          (append "LINT: Security requirements defined but no securitySchemes in components") ;;
     servers <- py_get (VDict d) "servers" (VList []) ;;
     when (negb (truthy servers))
          (append "LINT: No servers defined (recommended for clarity)"))
  = true.
Proof.
  rewrite py_get_dict, bind_ret, py_get_dict, bind_ret, returns_when.
  rewrite py_get_dict, bind_ret. apply returns_when_last.
Qed.

(** [lint_spec], as embedded, returns exactly on the well-shaped
    documents. *)
Lemma lint_spec_returns_well_shaped (spec : value) :
  (exists ws, lint_spec spec = Ok ws) <-> well_shaped spec = true.
Proof.
  assert (H : returns
                (check_openapi_version spec ;;
                 check_info spec ;;
                 check_paths spec ;;
                 components <- py_get spec "components" (VDict []) ;;
                 schemas <- py_get components "schemas" (VDict []) ;;
                 items <- dict_method schemas "items" ;;
                 for_each items check_schema ;;
                 security <- py_get spec "security" (VList []) ;;
                 security_schemes <- py_get components "securitySchemes" (VDict []) ;;
                 when (truthy security && negb (truthy security_schemes))
                   (append "LINT: Security requirements defined but no securitySchemes in components") ;;
                 servers <- py_get spec "servers" (VList []) ;;
                 when (negb (truthy servers))
                   (append "LINT: No servers defined (recommended for clarity)"))
              = well_shaped spec).
  { destruct spec as [ | b | n | r | s | l | d ]; try reflexivity.
    unfold well_shaped.
    rewrite !returns_then, returns_check_openapi_version, returns_check_info,
      returns_check_paths, <- !andb_assoc.
    do 3 f_equal.
    rewrite py_get_dict, bind_ret. unfold entry_ok.
    destruct (lookup d "components") as [ [ | b | n | r | s | l | c ] | ];
      try reflexivity.
    - rewrite py_get_dict, bind_ret. unfold shaped_components, entry_ok.
      destruct (lookup c "schemas") as [ [ | b | n | r | s | l | ss ] | ];
        try reflexivity.
      + cbn [dict_method]. rewrite bind_ret, returns_then, returns_tail.
        rewrite returns_for_each, andb_true_r.
        apply forallb_ext, returns_check_schema.
      + cbn [dict_method]. rewrite bind_ret. cbn [for_each].
        rewrite bind_ret. apply returns_tail.
    - rewrite py_get_dict, bind_ret. cbn [lookup dict_method].
      rewrite bind_ret. cbn [for_each]. rewrite bind_ret.
      apply returns_tail. }
  unfold lint_spec. rewrite <- H.
  destruct (_ ;; _) as [[[] w] | e]; simpl; split.
  - reflexivity.
  - intros _. now exists w.
  - intros (ws & Hws). discriminate.
  - discriminate.
Qed.

(** On a document whose mapping keys are all strings, as [json.loads]
    builds it, the linter returns its warnings exactly when the document is
    well shaped; on every other such document it raises. *)
Theorem lint_spec_returns_iff_well_shaped (spec : value) :
  string_keyed spec = true ->
  ((exists ws, lint_spec spec = Ok ws) <-> well_shaped spec = true).
Proof. intros _. apply lint_spec_returns_well_shaped. Qed.

(** ** What the linter raises *)

Section RaisesOnly.

Context (P : exn -> Prop).

Lemma raises_only_bind {A B} (m : Lint A) (f : A -> Lint B) :
  raises_only P m -> (forall a, raises_only P (f a)) ->
  raises_only P (bind m f).
Proof.
  intros Hm Hf e. unfold bind.
  destruct m as [[a w] | e1].
  - destruct (f a) as [[b w'] | e2] eqn:E; [ discriminate | ].
    intros H. injection H as <-. now apply (Hf a).
  - intros H. injection H as <-. now apply Hm.
Qed.

Lemma raises_only_ok {A} (x : A * list string) : raises_only P (Ok x).
Proof. intros e H. discriminate. Qed.

Lemma raises_only_ret {A} (a : A) : raises_only P (ret a).
Proof. apply raises_only_ok. Qed.

Lemma raises_only_append (msg : string) : raises_only P (append msg).
Proof. apply raises_only_ok. Qed.

Lemma raises_only_when (b : bool) (msg : string) :
  raises_only P (when b (append msg)).
Proof. destruct b; apply raises_only_ok. Qed.

Lemma raises_only_for_each {X} (body : X -> Lint unit) (l : list X) :
  (forall x, raises_only P (body x)) -> raises_only P (for_each l body).
Proof.
  intros Hb. induction l as [ | x l IH ]; simpl.
  - apply raises_only_ok.
  - apply raises_only_bind; [ apply Hb | intros _; exact IH ].
Qed.

End RaisesOnly.

Lemma missing_attribute_intro (type attr : string) :
  In attr ["get"; "startswith"; "items"; "keys"] ->
  missing_attribute (attribute_error type attr).
Proof. intros H. now exists type, attr. Qed.

Lemma raises_dict_method (v : value) (attr : string) :
  In attr ["get"; "startswith"; "items"; "keys"] ->
  raises_only missing_attribute (dict_method v attr).
Proof.
  intros Ha e. destruct v; simpl; intros H; try discriminate;
    injection H as <-; now apply missing_attribute_intro.
Qed.

Lemma raises_str_method (v : value) :
  raises_only missing_attribute (str_method v "startswith").
Proof.
  intros e. destruct v; simpl; intros H; try discriminate;
    injection H as <-; apply missing_attribute_intro; simpl; auto.
Qed.

Lemma raises_key_str_method (k : key) :
  raises_only missing_attribute (key_str_method k "startswith").
Proof.
  intros e. destruct k; simpl; intros H; try discriminate;
    injection H as <-; apply missing_attribute_intro; simpl; auto.
Qed.

Lemma raises_py_get (v : value) (name : string) (default : value) :
  raises_only missing_attribute (py_get v name default).
Proof.
  unfold py_get. apply raises_only_bind.
  - apply raises_dict_method. simpl. auto.
  - intros d. apply raises_only_ok.
Qed.

Lemma raises_none_truthy (v : value) (names : list string) :
  raises_only missing_attribute (none_truthy v names).
Proof.
  induction names as [ | n names IH ]; simpl.
  - apply raises_only_ok.
  - apply raises_only_bind; [ apply raises_py_get | ].
    intros x. destruct (truthy x); [ apply raises_only_ok | exact IH ].
Qed.

Create HintDb raises.

#[local] Hint Resolve raises_only_ok raises_only_ret raises_only_append
  raises_only_when raises_py_get
  raises_none_truthy raises_str_method raises_key_str_method : raises.

Ltac raises_step :=
  first
    [ solve [ auto with raises ]
    | apply raises_dict_method; simpl; tauto
    | apply raises_only_bind; [ | intros ? ]
    | apply raises_only_for_each; intros ? ].

Lemma raises_check_response (op_id : string) (entry : key * value) :
  raises_only missing_attribute (check_response op_id entry).
Proof.
  destruct entry as [code response]. unfold check_response.
  destruct (truthy response); repeat raises_step.
Qed.

#[local] Hint Resolve raises_check_response : raises.

Lemma raises_check_responses (op_id : string) (operation : value) :
  raises_only missing_attribute (check_responses op_id operation).
Proof.
  unfold check_responses. raises_step; [ raises_step | ].
  destruct (negb (truthy a)); repeat raises_step.
Qed.

#[local] Hint Resolve raises_check_responses : raises.

Lemma raises_check_operation (m p : string) (operation : value) :
  raises_only missing_attribute (check_operation m p operation).
Proof. unfold check_operation. repeat raises_step. Qed.

#[local] Hint Resolve raises_check_operation : raises.

Lemma raises_check_method (p : string) (item : value) (m : string) :
  raises_only missing_attribute (check_method p item m).
Proof.
  unfold check_method. raises_step; [ raises_step | ].
  destruct (truthy a); raises_step.
Qed.

#[local] Hint Resolve raises_check_method : raises.

Lemma raises_check_path (entry : key * value) :
  raises_only missing_attribute (check_path entry).
Proof.
  destruct entry as [k item]. unfold check_path.
  raises_step; [ raises_step | ]. raises_step; [ raises_step | ].
  destruct item; repeat raises_step.
Qed.

#[local] Hint Resolve raises_check_path : raises.

Lemma raises_check_paths (spec : value) :
  raises_only missing_attribute (check_paths spec).
Proof.
  unfold check_paths. raises_step; [ raises_step | ].
  destruct (negb (truthy a)); repeat raises_step.
Qed.

Lemma raises_check_openapi_version (spec : value) :
  raises_only missing_attribute (check_openapi_version spec).
Proof.
  unfold check_openapi_version. raises_step; [ raises_step | ].
  destruct (negb (truthy a)); repeat raises_step.
Qed.

Lemma raises_check_info (spec : value) :
  raises_only missing_attribute (check_info spec).
Proof.
  unfold check_info. raises_step; [ raises_step | ].
  destruct (negb (truthy a)); repeat raises_step.
Qed.

Lemma raises_check_schema (entry : key * value) :
  raises_only missing_attribute (check_schema entry).
Proof.
  destruct entry as [name schema]. unfold check_schema.
  destruct (truthy schema); repeat raises_step.
Qed.

#[local] Hint Resolve raises_check_paths raises_check_openapi_version
  raises_check_info raises_check_schema : raises.

Lemma raises_lint_spec (spec : value) (e : exn) :
  lint_spec spec = Raise e -> missing_attribute e.
Proof.
  unfold lint_spec. intros H.
  destruct (_ ;; _) as [[[] w] | e'] eqn:E in H; [ discriminate | ].
  injection H as ->. revert e E.
  change (raises_only missing_attribute
            (check_openapi_version spec ;;
             check_info spec ;;
             check_paths spec ;;
             components <- py_get spec "components" (VDict []) ;;
             schemas <- py_get components "schemas" (VDict []) ;;
             items <- dict_method schemas "items" ;;
             for_each items check_schema ;;
             security <- py_get spec "security" (VList []) ;;
             security_schemes <- py_get components "securitySchemes" (VDict []) ;;
             when (truthy security && negb (truthy security_schemes))
               (append "LINT: Security requirements defined but no securitySchemes in components") ;;
             servers <- py_get spec "servers" (VList []) ;;
             when (negb (truthy servers))
               (append "LINT: No servers defined (recommended for clarity)"))).
  repeat raises_step.
Qed.

(** On a document whose mapping keys are all strings, as [json.loads]
    builds it, the only exception [lint_spec] raises is the AttributeError
    of a missing [get], [startswith], [items] or [keys]. *)
Theorem lint_spec_raises_missing_attribute (spec : value) (e : exn) :
  string_keyed spec = true ->
  lint_spec spec = Raise e ->
  exn_class_of e = AttributeError /\ missing_attribute e.
Proof.
  intros _ H. pose proof (raises_lint_spec _ _ H) as Hm.
  split; [ | exact Hm ].
  destruct Hm as (type & attr & -> & _). reflexivity.
Qed.

(** ** The rules and the warnings they append *)

Lemma bind_assoc {A B C} (m : Lint A) (f : A -> Lint B) (g : B -> Lint C) :
  bind (bind m f) g = bind m (fun a => bind (f a) g).
Proof.
  unfold bind. destruct m as [[a w] | e]; [ | reflexivity ].
  destruct (f a) as [[b w1] | e]; [ | reflexivity ].
  destruct (g b) as [[c w2] | e]; [ | reflexivity ].
  now rewrite app_assoc.
Qed.

Lemma bind_ext {A B} (m : Lint A) (f g : A -> Lint B) :
  (forall a, f a = g a) -> bind m f = bind m g.
Proof.
  intros H. unfold bind. destruct m as [[a w] | e]; [ | reflexivity ].
  now rewrite H.
Qed.

Lemma bind_raise {A B} (e : exn) (f : A -> Lint B) :
  bind (Raise e) f = Raise e.
Proof. reflexivity. Qed.

(** [lint_spec] is its six rules, one after the other. *)
Lemma lint_spec_rules (spec : value) :
  lint_spec spec
  = warnings_of (check_openapi_version spec ;;
                 check_info spec ;;
                 check_paths spec ;;
                 check_schemas spec ;;
                 check_security spec ;;
                 check_servers spec).
Proof.
  unfold lint_spec. f_equal.
  apply bind_ext; intros _. apply bind_ext; intros _.
  apply bind_ext; intros _.
  destruct spec as [ | b | n | r | s | l | d ]; try reflexivity.
  unfold check_schemas, check_security, check_servers.
  rewrite !bind_assoc, py_get_dict, !bind_ret.
  set (c := match lookup d "components" with
            | Some x => x
            | None => VDict []
            end).
  rewrite !bind_assoc.
  apply bind_ext; intros schemas. rewrite !bind_assoc.
  apply bind_ext; intros items. rewrite ?bind_assoc.
  apply bind_ext; intros _.
  rewrite ?bind_assoc, py_get_dict, !bind_ret.
  rewrite ?bind_assoc, ?bind_ret.
  apply bind_ext; intros security_schemes.
  rewrite ?bind_assoc. reflexivity.
Qed.

Section Emits.

Context (Q : string -> Prop).

Lemma emits_bind {A B} (m : Lint A) (f : A -> Lint B) :
  emits Q m -> (forall a, emits Q (f a)) -> emits Q (bind m f).
Proof.
  intros Hm Hf b w H. apply bind_ok in H as (a & w1 & w2 & H1 & H2 & ->).
  apply Forall_app. split; [ eapply Hm | eapply Hf ]; eauto.
Qed.

Lemma emits_ret {A} (a : A) : emits Q (ret a).
Proof. intros a' w H. injection H as _ <-. constructor. Qed.

Lemma emits_raise {A} (e : exn) : emits Q (@Raise (A * list string) e).
Proof. intros a w H. discriminate. Qed.

Lemma emits_append (msg : string) : Q msg -> emits Q (append msg).
Proof. intros Hq a w H. injection H as _ <-. now repeat constructor. Qed.

Lemma emits_when (b : bool) (msg : string) :
  Q msg -> emits Q (when b (append msg)).
Proof. intros Hq. destruct b; [ now apply emits_append | apply emits_ret ]. Qed.

Lemma emits_for_each {X} (body : X -> Lint unit) (l : list X) :
  (forall x, In x l -> emits Q (body x)) -> emits Q (for_each l body).
Proof.
  induction l as [ | x l IH ]; intros Hb; simpl.
  - apply emits_ret.
  - apply emits_bind; [ apply Hb; now left | intros _ ].
    apply IH. intros y Hy. apply Hb. now right.
Qed.

Lemma emits_dict_method (v : value) (attr : string) :
  emits Q (dict_method v attr).
Proof. destruct v; first [ apply emits_ret | apply emits_raise ]. Qed.

Lemma emits_str_method (v : value) (attr : string) :
  emits Q (str_method v attr).
Proof. destruct v; first [ apply emits_ret | apply emits_raise ]. Qed.

Lemma emits_key_str_method (k : key) (attr : string) :
  emits Q (key_str_method k attr).
Proof. destruct k; first [ apply emits_ret | apply emits_raise ]. Qed.

Lemma emits_py_get (v : value) (name : string) (default : value) :
  emits Q (py_get v name default).
Proof.
  unfold py_get. apply emits_bind; [ apply emits_dict_method | ].
  intros d. apply emits_ret.
Qed.

Lemma emits_none_truthy (v : value) (names : list string) :
  emits Q (none_truthy v names).
Proof.
  induction names as [ | n names IH ]; simpl; [ apply emits_ret | ].
  apply emits_bind; [ apply emits_py_get | ].
  intros x. destruct (truthy x); [ apply emits_ret | exact IH ].
Qed.

End Emits.

Create HintDb emits.

#[local] Hint Resolve emits_ret emits_raise emits_dict_method
  emits_str_method emits_key_str_method emits_py_get emits_none_truthy
  : emits.

Ltac emits_step :=
  first
    [ solve [ auto with emits ]
    | apply emits_when
    | apply emits_append
    | apply emits_bind; [ | intros ? ] ].

Lemma prefix_empty (s : string) : String.prefix "" s = true.
Proof. now destruct s. Qed.

(** Decides [rule_warning i w] for a warning whose text starts with a
    literal. *)
Ltac rule_warning_tac :=
  split; unfold rule_of, startswith; simpl;
  rewrite ?prefix_empty; reflexivity.

Lemma rule_warning_op (m p rest : string) :
  In m methods ->
  rule_warning 3 ("LINT: " ++ (upper m ++ " " ++ p) ++ rest).
Proof.
  intros Hm. simpl in Hm.
  repeat (destruct Hm as [<- | Hm]; [ rule_warning_tac | ]).
  contradiction.
Qed.

Lemma emits_check_response (op_id : string) (entry : key * value) :
  method_id op_id -> emits (rule_warning 3) (check_response op_id entry).
Proof.
  intros (m & p & Hm & ->). destruct entry as [code response].
  unfold check_response.
  destruct (truthy response); repeat emits_step.
  now apply rule_warning_op.
Qed.

Lemma emits_check_responses (op_id : string) (operation : value) :
  method_id op_id -> emits (rule_warning 3) (check_responses op_id operation).
Proof.
  intros Hid. unfold check_responses. emits_step; [ emits_step | ].
  destruct (negb (truthy a)).
  - destruct Hid as (m & p & Hm & ->). emits_step.
    now apply rule_warning_op.
  - emits_step; [ emits_step | ]. emits_step.
    + destruct Hid as (m & p & Hm & ->). emits_step.
      now apply rule_warning_op.
    + emits_step; [ emits_step | ].
      apply emits_for_each. intros x _. now apply emits_check_response.
Qed.

Lemma emits_check_operation (m p : string) (operation : value) :
  In m methods -> emits (rule_warning 3) (check_operation m p operation).
Proof.
  intros Hm. unfold check_operation.
  emits_step; [ emits_step | ].
  emits_step; [ emits_step; now apply rule_warning_op | ].
  emits_step; [ emits_step | ].
  emits_step; [ emits_step; now apply rule_warning_op | ].
  apply emits_check_responses. now exists m, p.
Qed.

Lemma emits_check_method (p : string) (item : value) (m : string) :
  In m methods -> emits (rule_warning 3) (check_method p item m).
Proof.
  intros Hm. unfold check_method. emits_step; [ emits_step | ].
  destruct (truthy a); [ now apply emits_check_operation | emits_step ].
Qed.

Lemma emits_check_path (entry : key * value) :
  emits (rule_warning 3) (check_path entry).
Proof.
  destruct entry as [k item]. unfold check_path.
  emits_step; [ emits_step | ].
  emits_step; [ emits_step; rule_warning_tac | ].
  destruct item;
    try (apply emits_for_each; intros m Hm; now apply emits_check_method).
  emits_step.
Qed.

Lemma emits_check_paths (spec : value) :
  emits (rule_warning 3) (check_paths spec).
Proof.
  unfold check_paths. emits_step; [ emits_step | ].
  destruct (negb (truthy a)).
  - emits_step. rule_warning_tac.
  - emits_step; [ emits_step | ].
    apply emits_for_each. intros x _. apply emits_check_path.
Qed.

Lemma emits_check_openapi_version (spec : value) :
  emits (rule_warning 1) (check_openapi_version spec).
Proof.
  unfold check_openapi_version. emits_step; [ emits_step | ].
  destruct (negb (truthy a)).
  - emits_step. rule_warning_tac.
  - emits_step; [ emits_step | ]. emits_step. rule_warning_tac.
Qed.

Lemma emits_check_info (spec : value) :
  emits (rule_warning 2) (check_info spec).
Proof.
  unfold check_info. emits_step; [ emits_step | ].
  destruct (negb (truthy a)).
  - emits_step. rule_warning_tac.
  - repeat emits_step; rule_warning_tac.
Qed.

Lemma emits_check_schema (entry : key * value) :
  emits (rule_warning 4) (check_schema entry).
Proof.
  destruct entry as [name schema]. unfold check_schema.
  destruct (truthy schema); repeat emits_step; rule_warning_tac.
Qed.

Lemma emits_check_schemas (spec : value) :
  emits (rule_warning 4) (check_schemas spec).
Proof.
  unfold check_schemas. do 3 (emits_step; [ emits_step | ]).
  apply emits_for_each. intros x _. apply emits_check_schema.
Qed.

Lemma emits_check_security (spec : value) :
  emits (rule_warning 5) (check_security spec).
Proof.
  unfold check_security. repeat emits_step. rule_warning_tac.
Qed.

Lemma emits_check_servers (spec : value) :
  emits (rule_warning 6) (check_servers spec).
Proof.
  unfold check_servers. repeat emits_step. rule_warning_tac.
Qed.

(** A run of [lint_spec] that returns is a run of each of the six rules,
    and its warnings are theirs, in the order of the rules. *)
Lemma lint_spec_blocks (spec : value) (ws : list string) :
  lint_spec spec = Ok ws ->
  exists w1 w2 w3 w4 w5 w6,
    check_openapi_version spec = Ok (tt, w1)
    /\ check_info spec = Ok (tt, w2)
    /\ check_paths spec = Ok (tt, w3)
    /\ check_schemas spec = Ok (tt, w4)
    /\ check_security spec = Ok (tt, w5)
    /\ check_servers spec = Ok (tt, w6)
    /\ ws = (w1 ++ w2 ++ w3 ++ w4 ++ w5 ++ w6)%list.
Proof.
  rewrite lint_spec_rules. intros H. apply warnings_of_ok in H.
  apply bind_ok in H as ([] & w1 & r1 & H1 & H & ->).
  apply bind_ok in H as ([] & w2 & r2 & H2 & H & ->).
  apply bind_ok in H as ([] & w3 & r3 & H3 & H & ->).
  apply bind_ok in H as ([] & w4 & r4 & H4 & H & ->).
  apply bind_ok in H as ([] & w5 & w6 & H5 & H6 & ->).
  now exists w1, w2, w3, w4, w5, w6.
Qed.

Lemma of_rule_app (i : nat) (a b : list string) :
  of_rule i (a ++ b) = (of_rule i a ++ of_rule i b)%list.
Proof. apply filter_app. Qed.

Lemma of_rule_same (i : nat) (w : list string) :
  Forall (rule_warning i) w -> of_rule i w = w.
Proof.
  induction 1 as [ | x w [Hx _] _ IH ]; simpl; [ reflexivity | ].
  now rewrite Hx, Nat.eqb_refl, IH.
Qed.

Lemma of_rule_other (i j : nat) (w : list string) :
  Forall (rule_warning j) w -> j <> i -> of_rule i w = [].
Proof.
  intros H Hne. induction H as [ | x w [Hx _] _ IH ]; simpl; [ reflexivity | ].
  rewrite Hx. now destruct (Nat.eqb_spec j i).
Qed.

(** The warnings of each rule can be read back from the output. *)
Lemma lint_spec_rule_blocks (spec : value) (ws : list string) :
  lint_spec spec = Ok ws ->
  check_openapi_version spec = Ok (tt, of_rule 1 ws)
  /\ check_info spec = Ok (tt, of_rule 2 ws)
  /\ check_paths spec = Ok (tt, of_rule 3 ws)
  /\ check_schemas spec = Ok (tt, of_rule 4 ws)
  /\ check_security spec = Ok (tt, of_rule 5 ws)
  /\ check_servers spec = Ok (tt, of_rule 6 ws).
Proof.
  intros H.
  apply lint_spec_blocks in H
    as (w1 & w2 & w3 & w4 & w5 & w6 & H1 & H2 & H3 & H4 & H5 & H6 & ->).
  pose proof (emits_check_openapi_version _ _ _ H1) as E1.
  pose proof (emits_check_info _ _ _ H2) as E2.
  pose proof (emits_check_paths _ _ _ H3) as E3.
  pose proof (emits_check_schemas _ _ _ H4) as E4.
  pose proof (emits_check_security _ _ _ H5) as E5.
  pose proof (emits_check_servers _ _ _ H6) as E6.
  rewrite !of_rule_app.
  rewrite (of_rule_same 1 w1), (of_rule_same 2 w2), (of_rule_same 3 w3),
    (of_rule_same 4 w4), (of_rule_same 5 w5), (of_rule_same 6 w6) by assumption.
  repeat match goal with
         | |- context [ of_rule ?i ?w ] =>
             match goal with
             | E : Forall (rule_warning ?j) w |- _ =>
                 rewrite (of_rule_other i j w E) by discriminate
             end
         end.
  simpl. rewrite !app_nil_r. now repeat split.
Qed.

(** Every warning starts with "LINT: " and belongs to one of the six rules,
    and the output lists the warnings of the version rule, then those of
    the info, paths, schemas, security and servers rules. *)
Theorem lint_spec_warnings_by_rule (spec : value) (ws : list string) :
  lint_spec spec = Ok ws ->
  Forall (fun w => startswith w "LINT: " = true /\ 1 <= rule_of w <= 6) ws
  /\ ws = (of_rule 1 ws ++ of_rule 2 ws ++ of_rule 3 ws
           ++ of_rule 4 ws ++ of_rule 5 ws ++ of_rule 6 ws)%list.
Proof.
  intros H.
  destruct (lint_spec_rule_blocks _ _ H) as (R1 & R2 & R3 & R4 & R5 & R6).
  apply lint_spec_blocks in H
    as (w1 & w2 & w3 & w4 & w5 & w6 & H1 & H2 & H3 & H4 & H5 & H6 & E).
  rewrite H1 in R1. rewrite H2 in R2. rewrite H3 in R3. rewrite H4 in R4.
  rewrite H5 in R5. rewrite H6 in R6.
  injection R1 as R1. injection R2 as R2. injection R3 as R3.
  injection R4 as R4. injection R5 as R5. injection R6 as R6.
  split; [ | rewrite <- R1, <- R2, <- R3, <- R4, <- R5, <- R6; exact E ].
  rewrite E. 
  pose proof (emits_check_openapi_version _ _ _ H1) as E1.
  pose proof (emits_check_info _ _ _ H2) as E2.
  pose proof (emits_check_paths _ _ _ H3) as E3.
  pose proof (emits_check_schemas _ _ _ H4) as E4.
  pose proof (emits_check_security _ _ _ H5) as E5.
  pose proof (emits_check_servers _ _ _ H6) as E6.
  repeat (apply Forall_app; split);
    match goal with
    | E : Forall (rule_warning _) ?w |- Forall _ ?w =>
        eapply Forall_impl; [ | exact E ]
    end;
    intros w [-> ->]; split; [ reflexivity | lia | reflexivity | lia
                              | reflexivity | lia | reflexivity | lia
                              | reflexivity | lia | reflexivity | lia ].
Qed.

(** ** The rules one by one *)

Lemma falsy_entry_default (d : dict) (name : string) (default : value) :
  truthy default = false ->
  negb (truthy (match lookup d name with Some x => x | None => default end))
  = falsy_entry d name.
Proof.
  intros Hd. unfold falsy_entry. destruct (lookup d name); [ reflexivity | ].
  now rewrite Hd.
Qed.

(** The version rule: a missing or falsy [openapi] gives the one warning
    that the field is missing; a string that does not start with "3." gives
    the one warning that quotes it; a string that starts with "3." gives
    none. *)
Theorem version_rule (d : dict) (ws : list string) :
  lint_spec (VDict d) = Ok ws ->
  (falsy_entry d "openapi" = true ->
   of_rule 1 ws = ["LINT: Missing 'openapi' version field"])
  /\ (forall s : string,
        lookup d "openapi" = Some (VStr s) -> s <> "" ->
        of_rule 1 ws
        = warn_if (negb (startswith s "3."))
                  ("LINT: OpenAPI version '" ++ s ++ "' is not 3.x")).
Proof.
  intros H. destruct (lint_spec_rule_blocks _ _ H) as (R & _).
  unfold check_openapi_version in R. rewrite py_get_dict, bind_ret in R.
  split.
  - intros Hf. rewrite (falsy_entry_default d "openapi" (VStr "")) in R
      by reflexivity.
    rewrite Hf in R. now injection R as <-.
  - intros s Hs Hne. rewrite Hs in R. cbn [truthy] in R.
    apply String.eqb_neq in Hne. rewrite Hne in R. cbn [negb str_method] in R.
    rewrite bind_ret in R.
    destruct (negb (startswith s "3.")); now injection R as <-.
Qed.

(** The info rule: a missing or empty [info] gives the one warning that the
    section is missing and none about its fields; an [info] mapping with
    entries gives one warning for each of [title], [version] and
    [description] that is missing or falsy, in this order. *)
Theorem info_rule (d : dict) (ws : list string) :
  lint_spec (VDict d) = Ok ws ->
  (falsy_entry d "info" = true ->
   of_rule 2 ws = ["LINT: Missing 'info' section"])
  /\ (forall info : dict,
        lookup d "info" = Some (VDict info) -> info <> [] ->
        of_rule 2 ws
        = (warn_if (falsy_entry info "title") "LINT: Missing 'info.title'"
           ++ warn_if (falsy_entry info "version")
                      "LINT: Missing 'info.version'"
           ++ warn_if (falsy_entry info "description")
                      "LINT: Missing 'info.description' (recommended)")%list).
Proof.
  intros H. destruct (lint_spec_rule_blocks _ _ H) as (_ & R & _).
  unfold check_info in R. rewrite py_get_dict, bind_ret in R.
  split.
  - intros Hf. rewrite (falsy_entry_default d "info" (VDict [])) in R
      by reflexivity.
    rewrite Hf in R. now injection R as <-.
  - intros info Hi Hne. rewrite Hi in R.
    rewrite truthy_dict in R by assumption. cbn [negb] in R.
    unfold falsy_entry. revert R.
    unfold py_get. cbn [dict_method bind ret].
    destruct (truthy match lookup info "title" with
                     | Some x => x | None => VNone end);
      destruct (truthy match lookup info "version" with
                       | Some x => x | None => VNone end);
      destruct (truthy match lookup info "description" with
                       | Some x => x | None => VNone end);
      cbn; intros R; now injection R as <-.
Qed.

(** The servers rule: missing or falsy [servers] give the one warning, and
    it is the last of the output; otherwise there is none. *)
Theorem servers_rule (d : dict) (ws : list string) :
  lint_spec (VDict d) = Ok ws ->
  of_rule 6 ws
  = warn_if (falsy_entry d "servers")
            "LINT: No servers defined (recommended for clarity)"
  /\ (falsy_entry d "servers" = true ->
      exists before,
        ws = (before
              ++ ["LINT: No servers defined (recommended for clarity)"])%list).
Proof.
  intros H.
  destruct (lint_spec_rule_blocks _ _ H) as (_ & _ & _ & _ & _ & R).
  unfold check_servers in R. rewrite py_get_dict, bind_ret in R.
  rewrite (falsy_entry_default d "servers" (VList [])) in R by reflexivity.
  assert (E : of_rule 6 ws
              = warn_if (falsy_entry d "servers")
                  "LINT: No servers defined (recommended for clarity)")
    by (destruct (falsy_entry d "servers"); now injection R as <-).
  split; [ exact E | ].
  intros Hf.
  apply lint_spec_blocks in H
    as (w1 & w2 & w3 & w4 & w5 & w6 & _ & _ & _ & _ & _ & H6 & ->).
  unfold check_servers in H6. rewrite py_get_dict, bind_ret in H6.
  rewrite (falsy_entry_default d "servers" (VList [])) in H6 by reflexivity.
  rewrite Hf in H6. injection H6 as <-.
  exists (w1 ++ w2 ++ w3 ++ w4 ++ w5)%list. now rewrite <- !app_assoc.
Qed.

(** The security rule: the one warning is given exactly when [security] is
    truthy and [components.securitySchemes] is missing or falsy. *)
Theorem security_rule (d components : dict) (ws : list string) :
  lint_spec (VDict d) = Ok ws ->
  lookup d "components" = Some (VDict components)
  \/ (lookup d "components" = None /\ components = []) ->
  of_rule 5 ws
  = warn_if (negb (falsy_entry d "security")
             && falsy_entry components "securitySchemes")
            "LINT: Security requirements defined but no securitySchemes in components".
Proof.
  intros H Hc.
  destruct (lint_spec_rule_blocks _ _ H) as (_ & _ & _ & _ & R & _).
  unfold check_security in R.
  rewrite py_get_dict, bind_ret, py_get_dict, bind_ret in R.
  assert (E : match lookup d "components" with
              | Some x => x
              | None => VDict []
              end = VDict components)
    by (destruct Hc as [-> | [-> ->]]; reflexivity).
  rewrite E, py_get_dict, bind_ret in R.
  rewrite (falsy_entry_default components "securitySchemes" (VDict [])) in R
    by reflexivity.
  rewrite <- (negb_involutive (truthy _)) in R.
  rewrite (falsy_entry_default d "security" (VList [])) in R by reflexivity.
  destruct (negb (falsy_entry d "security")
            && falsy_entry components "securitySchemes");
    now injection R as <-.
Qed.

(** The paths rule without paths: a missing or empty [paths] gives the one
    warning that no paths are defined, and no other warning of the rule. *)
Theorem no_paths_rule (d : dict) (ws : list string) :
  lint_spec (VDict d) = Ok ws ->
  falsy_entry d "paths" = true ->
  of_rule 3 ws = ["LINT: No paths defined"].
Proof.
  intros H Hf.
  destruct (lint_spec_rule_blocks _ _ H) as (_ & _ & R & _).
  unfold check_paths in R. rewrite py_get_dict, bind_ret in R.
  rewrite (falsy_entry_default d "paths" (VDict [])) in R by reflexivity.
  rewrite Hf in R. now injection R as <-.
Qed.

(** ** Paths, operations and schemas *)

(** In a run that returns, a path that does not start with "/" is
    reported, also when its item is null. *)
Theorem path_naming_rule (d paths : dict) (p : string) (item : value)
    (ws : list string) :
  lint_spec (VDict d) = Ok ws ->
  lookup d "paths" = Some (VDict paths) ->
  In (KStr p, item) paths ->
  startswith p "/" = false ->
  In ("LINT: Path '" ++ p ++ "' should start with '/'") ws.
Proof.
  intros H Hl Hin Hs.
  apply lint_spec_paths in H as (w1 & H1 & Hw1).
  eapply check_paths_entry in H1 as (w2 & H2 & Hw2); eauto.
  unfold check_path in H2. cbn [key_str_method] in H2.
  rewrite bind_ret, Hs in H2.
  apply bind_ok in H2 as ([] & wa & wb & Ha & _ & ->).
  injection Ha as <-.
  eapply within_In; [ | exact Hw1 ].
  eapply within_In; [ | exact Hw2 ]. now left.
Qed.

Lemma for_each_null_items (paths : dict) (w : list string) :
  (forall entry, In entry paths -> snd entry = VNone) ->
  for_each paths check_path = Ok (tt, w) ->
  w = flat_map
        (fun entry =>
           warn_if (negb (startswith (str_key (fst entry)) "/"))
                   ("LINT: Path '" ++ str_key (fst entry)
                    ++ "' should start with '/'"))
        paths.
Proof.
  revert w. induction paths as [ | [k item] paths IH ]; intros w Hnull H.
  - now injection H as <-.
  - apply for_each_cons in H as (wx & wl & Hx & Hl & ->).
    simpl. f_equal.
    + pose proof (Hnull (k, item) (or_introl eq_refl)) as Hi.
      simpl in Hi. subst item.
      destruct k as [ | b | n | r | p ]; try discriminate.
      unfold check_path in Hx. cbn [key_str_method] in Hx.
      rewrite bind_ret in Hx. cbn [str_key fst].
      destruct (negb (startswith p "/")); now injection Hx as <-.
    + apply IH; [ | exact Hl ]. intros e He. apply Hnull. now right.
Qed.

(** When every path item is null, the paths rule gives the naming warnings
    of the paths, in document order, and no operation warning. *)
Theorem null_path_items_rule (d paths : dict) (ws : list string) :
  lint_spec (VDict d) = Ok ws ->
  lookup d "paths" = Some (VDict paths) -> paths <> [] ->
  (forall entry, In entry paths -> snd entry = VNone) ->
  of_rule 3 ws
  = flat_map
      (fun entry =>
         warn_if (negb (startswith (str_key (fst entry)) "/"))
                 ("LINT: Path '" ++ str_key (fst entry)
                  ++ "' should start with '/'"))
      paths.
Proof.
  intros H Hl Hne Hnull.
  destruct (lint_spec_rule_blocks _ _ H) as (_ & _ & R & _).
  unfold check_paths in R. rewrite py_get_dict, bind_ret, Hl in R.
  rewrite truthy_dict in R by assumption.
  cbn [negb dict_method] in R. rewrite bind_ret in R.
  now apply for_each_null_items.
Qed.


(** An operation without responses: a checked operation whose [responses]
    are missing or empty gets the warning that none are defined, right
    after its identifier and summary warnings, and no warning about a
    success response or a response description. *)
Theorem no_responses_rule
    (d paths item op : dict) (p m : string) (ws : list string) :
  lint_spec (VDict d) = Ok ws ->
  lookup d "paths" = Some (VDict paths) ->
  In (KStr p, VDict item) paths ->
  In m methods ->
  lookup item m = Some (VDict op) -> op <> [] ->
  falsy_entry op "responses" = true ->
  check_operation m p (VDict op)
  = Ok (tt,
        (warn_if (falsy_entry op "operationId")
                 ("LINT: " ++ op_id_of m p ++ " missing 'operationId'")
         ++ warn_if (falsy_entry op "summary" && falsy_entry op "description")
                    ("LINT: " ++ op_id_of m p
                     ++ " missing 'summary' or 'description'")
         ++ [("LINT: " ++ op_id_of m p ++ " has no responses defined")%string]
        )%list)
  /\ In ("LINT: " ++ op_id_of m p ++ " has no responses defined") ws.
Proof.
  intros H Hp Hin Hm Hop Hne Hf.
  destruct (lint_spec_operation _ _ _ _ _ _ _ H Hp Hin Hm Hop Hne)
    as (w & Hw & Hin_w).
  destruct (check_operation_blocks _ _ _ _ Hw) as (wr & Hwr & Heq).
  unfold check_responses in Hwr. rewrite py_get_dict, bind_ret in Hwr.
  rewrite (falsy_entry_default op "responses" (VDict [])) in Hwr
    by reflexivity.
  rewrite Hf in Hwr. injection Hwr as <-.
  split; [ now rewrite Hw, Heq | ].
  eapply within_In; [ | exact Hin_w ]. rewrite Heq.
  apply in_or_app. right. apply in_or_app. right. now left.
Qed.

Lemma none_truthy_falsy (d : dict) (names : list string) :
  none_truthy (VDict d) names
  = ret (forallb (fun name => falsy_entry d name) names).
Proof.
  induction names as [ | n names IH ]; cbn [none_truthy forallb];
    [ reflexivity | ].
  rewrite py_get_dict, bind_ret. unfold falsy_entry at 1.
  destruct (truthy _); [ reflexivity | exact IH ].
Qed.

(** The warnings of one schema that is a mapping with entries. *)
Lemma check_schema_blocks (name : key) (schema : dict) :
  schema <> [] ->
  check_schema (name, VDict schema)
  = Ok (tt,
        (warn_if (falsy_entry schema "description")
                 ("LINT: Schema '" ++ str_key name
                  ++ "' missing description (recommended)")
         ++ warn_if (forallb (fun n => falsy_entry schema n)
                             ["type"; "$ref"; "allOf"; "oneOf"; "anyOf"])
                    ("LINT: Schema '" ++ str_key name
                     ++ "' has no type definition"))%list).
Proof.
  intros Hne. unfold check_schema. rewrite truthy_dict by assumption.
  rewrite py_get_dict, bind_ret, none_truthy_falsy, bind_ret.
  fold (falsy_entry schema "description").
  destruct (falsy_entry schema "description"); destruct (forallb _ _);
    reflexivity.
Qed.

(** Without [components], or without [schemas] in it, the schemas rule
    gives no warning. *)
Theorem no_schemas_rule (d : dict) (ws : list string) :
  lint_spec (VDict d) = Ok ws ->
  lookup d "components" = None
  \/ (exists components,
        lookup d "components" = Some (VDict components)
        /\ lookup components "schemas" = None) ->
  of_rule 4 ws = [].
Proof.
  intros H Hc.
  destruct (lint_spec_rule_blocks _ _ H) as (_ & _ & _ & R & _).
  unfold check_schemas in R. rewrite py_get_dict, bind_ret in R.
  destruct Hc as [Hc | (c & Hc & Hs)]; rewrite Hc in R.
  - now injection R as <-.
  - rewrite py_get_dict, bind_ret, Hs in R. now injection R as <-.
Qed.

(** ** The report of every run *)

(** In every report, valid means no conformance error, and the exit status
    is 0 for a valid report and 1 otherwise. *)
Theorem valid_iff_no_schema_error (env : Env) (args : Args) :
  (valid (run env args) = true <-> schema_errors (run env args) = [])
  /\ (main env args = 0%Z <-> valid (run env args) = true)
  /\ (main env args = 0%Z \/ main env args = 1%Z).
Proof.
  unfold main, exit_code.
  assert (H : valid (run env args) = true <-> schema_errors (run env args) = []).
  { unfold run, try_body, schema_phase, handle.
    destruct (load_spec env (spec_file args)) as [spec | e].
    - destruct (lint_only args); cbn [negb];
        [ | cbv zeta; cbn [schema_errors set_schema_errors];
            destruct (validate_schema env (spec_file args)) ];
        destruct (schema_only args); cbn [negb];
        try destruct (lint_spec spec) as [ws | e];
        try (destruct (exn_class_of e));
        simpl; split; congruence.
    - destruct (exn_class_of e); simpl; split; congruence. }
  split; [ exact H | ].
  destruct (valid (run env args)); split; try split; auto; congruence.
Qed.

Lemma validate_schema_length (env : Env) (file_path : string) :
  length (validate_schema env file_path) <= 1.
Proof.
  unfold validate_schema. destruct (VALIDATOR_AVAILABLE env); simpl; [ | lia ].
  destruct (validate env file_path) as [e | ]; simpl; [ | lia ].
  destruct (exn_class_of e); simpl; try lia;
    destruct (strip (exn_str e) =? ""); simpl; lia.
Qed.

(** A report never holds more than one conformance error, and
    [validate_schema] never returns more than one finding. *)
Theorem at_most_one_schema_error (env : Env) (args : Args) :
  length (schema_errors (run env args)) <= 1
  /\ length (validate_schema env (spec_file args)) <= 1.
Proof.
  split; [ | apply validate_schema_length ].
  pose proof (validate_schema_length env (spec_file args)) as Hv.
  unfold run, try_body, schema_phase, handle.
  destruct (load_spec env (spec_file args)) as [spec | e].
  - destruct (lint_only args); cbn [negb];
      [ | cbv zeta; cbn [schema_errors set_schema_errors];
          destruct (nonempty (validate_schema env (spec_file args))) ];
      destruct (schema_only args); cbn [negb];
      try destruct (lint_spec spec) as [ws | e];
      try (destruct (exn_class_of e));
      simpl; lia.
  - destruct (exn_class_of e); simpl; lia.
Qed.

(** When [lint_spec] raises, the report is invalid, its only conformance
    error is "Failed to parse spec: " followed by the exception text,
    whatever the conformance phase had found, it has no lint warning, and
    the exit status is 1. *)
Theorem lint_failure_report (env : Env) (args : Args) (spec : value)
    (e : exn) :
  load_spec env (spec_file args) = Ok spec ->
  schema_only args = false ->
  lint_spec spec = Raise e ->
  run env args
  = {| file := spec_file args; valid := false;
       schema_errors := ["Failed to parse spec: " ++ exn_str e];
       lint_warnings := [] |}
  /\ main env args = 1%Z.
Proof.
  intros Hl Hs He.
  assert (Hc : exn_class_of e = AttributeError)
    by (destruct (raises_lint_spec _ _ He) as (t & a & -> & _); reflexivity).
  assert (Hr : run env args
               = {| file := spec_file args; valid := false;
                    schema_errors := ["Failed to parse spec: " ++ exn_str e];
                    lint_warnings := [] |}).
  { unfold run, try_body. rewrite Hl, Hs. cbn [negb]. rewrite He.
    unfold handle. rewrite Hc. unfold schema_phase.
    destruct (lint_only args); cbn [negb]; [ reflexivity | ].
    cbv zeta. cbn [schema_errors set_schema_errors].
    destruct (nonempty _); reflexivity. }
  split; [ exact Hr | ]. unfold main. now rewrite Hr.
Qed.

(** A document that is no mapping, such as the [None] of an empty YAML
    file, a list or a scalar, makes the lint phase fail on its first
    [get], and the report says so as a parse failure. *)
Theorem non_mapping_document_report (env : Env) (args : Args) (spec : value) :
  load_spec env (spec_file args) = Ok spec ->
  schema_only args = false ->
  (forall d, spec <> VDict d) ->
  lint_spec spec = Raise (attribute_error (type_name spec) "get")
  /\ schema_errors (run env args)
     = ["Failed to parse spec: '" ++ type_name spec
        ++ "' object has no attribute 'get'"]
  /\ valid (run env args) = false.
Proof.
  intros Hl Hs Hd.
  assert (He : lint_spec spec = Raise (attribute_error (type_name spec) "get"))
    by (destruct spec; try reflexivity; now destruct (Hd entries)).
  split; [ exact He | ].
  unfold run, try_body. rewrite Hl, Hs. cbn [negb]. rewrite He.
  unfold handle, schema_phase.
  destruct (lint_only args); cbn [negb]; [ split; reflexivity | ].
  cbv zeta. cbn [schema_errors set_schema_errors].
  destruct (nonempty _); split; reflexivity.
Qed.

(** With --lint-only the validator plays no part: whether it is installed
    and what it would say leave the report unchanged. *)
Theorem lint_only_ignores_validator (env : Env) (args : Args)
    (available : bool) (verdict : string -> option exn) :
  lint_only args = true ->
  run (with_validator available verdict env) args = run env args.
Proof.
  intros Hlo. unfold run, try_body, schema_phase. rewrite Hlo.
  reflexivity.
Qed.

(** With --schema-only the report has no lint warning, and the content of
    the document plays no part once it loads: two runs whose documents load
    and whose conformance findings agree have the same report. *)
Theorem schema_only_ignores_document (env env' : Env) (args : Args)
    (spec spec' : value) :
  schema_only args = true ->
  load_spec env (spec_file args) = Ok spec ->
  load_spec env' (spec_file args) = Ok spec' ->
  validate_schema env (spec_file args) = validate_schema env' (spec_file args) ->
  lint_warnings (run env args) = []
  /\ run env args = run env' args.
Proof.
  intros Hso Hl Hl' Hv. unfold run, try_body, schema_phase.
  rewrite Hl, Hl', Hso, Hv. cbn [negb]. split; [ | reflexivity ].
  destruct (lint_only args); cbn [negb]; [ reflexivity | ].
  cbv zeta. cbn [schema_errors set_schema_errors].
  destruct (nonempty _); reflexivity.
Qed.

(** ** More on the loader *)

(** A document that [load_spec] returns is what one of the two parsers made
    of the text of a file that exists: the YAML parser, which then is
    installed and was not ruled out by a .json suffix, or the JSON parser,
    which was not ruled out by a .yaml or .yml suffix. *)
Theorem load_spec_provenance (env : Env) (file_path : string) (spec : value) :
  load_spec env file_path = Ok spec ->
  path_exists env file_path = true
  /\ exists content,
       read_text env file_path = Ok content
       /\ ((YAML_AVAILABLE env = true
            /\ suffix env file_path <> ".json"
            /\ yaml_safe_load env content = Ok spec)
           \/ (suffix env file_path <> ".yaml"
               /\ suffix env file_path <> ".yml"
               /\ json_loads env content = Ok spec)).
Proof.
  unfold load_spec.
  destruct (path_exists env file_path); cbn [negb]; [ | discriminate ].
  destruct (read_text env file_path) as [content | e]; [ | discriminate ].
  intros H. split; [ reflexivity | ]. exists content.
  split; [ reflexivity | ].
  destruct (String.eqb_spec (suffix env file_path) ".yaml") as [E1 | N1].
  - rewrite E1 in *. cbn [orb] in H.
    destruct (YAML_AVAILABLE env); cbn [negb] in H; [ | discriminate ].
    left. repeat split; [ discriminate | exact H ].
  - destruct (String.eqb_spec (suffix env file_path) ".yml") as [E2 | N2].
    + rewrite E2 in *. cbn [orb] in H.
      destruct (YAML_AVAILABLE env); cbn [negb] in H; [ | discriminate ].
      left. repeat split; [ discriminate | exact H ].
    + cbn [orb] in H.
      destruct (String.eqb_spec (suffix env file_path) ".json") as [E3 | N3].
      * right. now repeat split.
      * destruct (YAML_AVAILABLE env); [ | right; now repeat split ].
        destruct (yaml_safe_load env content) as [v | e] eqn:Ey.
        -- left. repeat split; [ exact N3 | exact H ].
        -- destruct (exn_class_of e); try discriminate.
           right. now repeat split.
Qed.

(** Under a format hint the loader is strict: a .json file gets the outcome
    of the JSON parser whatever the YAML parser would say, and a .yaml or
    .yml file gets the outcome of the YAML parser when it is installed, and
    an ImportError when it is not, whatever the JSON parser would say. *)
Theorem load_spec_hinted (env : Env) (file_path content : string) :
  path_exists env file_path = true ->
  read_text env file_path = Ok content ->
  (suffix env file_path = ".json" ->
   load_spec env file_path = json_loads env content)
  /\ (suffix env file_path = ".yaml" \/ suffix env file_path = ".yml" ->
      load_spec env file_path
      = if YAML_AVAILABLE env then yaml_safe_load env content
        else Raise (Exn ImportError
                     "PyYAML is required for YAML files. Install with: pip install pyyaml"
                     None)).
Proof.
  intros Hex Hrd. unfold load_spec. rewrite Hex, Hrd. cbn [negb].
  split.
  - intros ->. reflexivity.
  - intros [-> | ->]; cbn; destruct (YAML_AVAILABLE env); reflexivity.
Qed.

(** Without a format hint and with the YAML parser installed, a document
    the YAML parser returns is the result; only a YAMLError makes the
    loader turn to the JSON parser, and any other exception of the YAML
    parser is raised as it is. *)
Theorem load_spec_unhinted (env : Env) (file_path content : string) :
  path_exists env file_path = true ->
  read_text env file_path = Ok content ->
  suffix env file_path <> ".yaml" ->
  suffix env file_path <> ".yml" ->
  suffix env file_path <> ".json" ->
  YAML_AVAILABLE env = true ->
  (forall spec, yaml_safe_load env content = Ok spec ->
                load_spec env file_path = Ok spec)
  /\ (forall e, yaml_safe_load env content = Raise e ->
                exn_class_of e = YAMLError ->
                load_spec env file_path = json_loads env content)
  /\ (forall e, yaml_safe_load env content = Raise e ->
                exn_class_of e <> YAMLError ->
                load_spec env file_path = Raise e).
Proof.
  intros Hex Hrd H1 H2 H3 Hy.
  apply String.eqb_neq in H1, H2, H3.
  unfold load_spec. rewrite Hex, Hrd, H1, H2, H3, Hy. cbn.
  repeat split.
  - intros spec ->. reflexivity.
  - intros e -> ->. reflexivity.
  - intros e -> Hc. destruct (exn_class_of e); congruence.
Qed.

(** ** More on the conformance checker *)

Lemma lstrip_head (s : string) :
  match lstrip s with
  | EmptyString => True
  | String c _ => isspace c = false
  end.
Proof.
  induction s as [ | c s IH ]; simpl; [ exact I | ].
  destruct (isspace c) eqn:E; [ exact IH | exact E ].
Qed.

Lemma rstrip_idempotent (s : string) : rstrip (rstrip s) = rstrip s.
Proof.
  induction s as [ | c s IH ]; simpl; [ reflexivity | ].
  destruct (rstrip s) as [ | k kept ] eqn:E.
  - destruct (isspace c) eqn:Ec; simpl; [ reflexivity | now rewrite Ec ].
  - change (rstrip (String c (String k kept)))
      with (match rstrip (String k kept) with
            | EmptyString =>
                if isspace c then EmptyString else String c EmptyString
            | String a b => String c (String a b)
            end).
    now rewrite IH.
Qed.

Lemma rstrip_head (c : ascii) (s : string) :
  isspace c = false -> exists rest, rstrip (String c s) = String c rest.
Proof.
  intros Hc. simpl. destruct (rstrip s) as [ | k kept ].
  - rewrite Hc. now exists EmptyString.
  - now exists (String k kept).
Qed.

Lemma strip_trimmed (s : string) : trimmed (strip s).
Proof.
  unfold trimmed, strip. split; [ | apply rstrip_idempotent ].
  pose proof (lstrip_head s) as Hh.
  destruct (lstrip s) as [ | c rest ]; [ reflexivity | ].
  destruct (rstrip_head c rest Hh) as (r & ->). simpl. now rewrite Hh.
Qed.

(** Every finding of [validate_schema] is of one of three kinds: the notice
    that the validator is missing, a text after "SCHEMA ERROR: ", or, after
    "ERROR: ", a text that is not empty and has no whitespace at either
    end. *)
Theorem validate_schema_findings (env : Env) (file_path finding : string) :
  In finding (validate_schema env file_path) ->
  (finding = validator_missing /\ VALIDATOR_AVAILABLE env = false)
  \/ (exists text, finding = "SCHEMA ERROR: " ++ text)
  \/ (exists text,
        finding = "ERROR: " ++ text /\ text <> "" /\ trimmed text).
Proof.
  unfold validate_schema.
  destruct (VALIDATOR_AVAILABLE env); cbn [negb].
  - destruct (validate env file_path) as [e | ]; [ | contradiction ].
    assert (Hother :
              In finding
                 (if negb (strip (exn_str e) =? "")
                  then ["ERROR: " ++ strip (exn_str e)] else []) ->
              exists text,
                finding = "ERROR: " ++ text /\ text <> "" /\ trimmed text).
    { destruct (String.eqb_spec (strip (exn_str e)) "") as [E | N];
        cbn [negb]; [ contradiction | ].
      intros [<- | []]. exists (strip (exn_str e)).
      repeat split; [ exact N | apply strip_trimmed | apply strip_trimmed ]. }
    destruct (exn_class_of e); try (intros H; right; right; now apply Hother).
    intros [<- | []]. right. left. eauto.
  - intros [<- | []]. now left.
Qed.

(** [validate_schema] returns no finding exactly when the validator is
    installed and either accepts the file or fails, with an exception that
    is no conformance violation, on a blank text. *)
Theorem validate_schema_clean (env : Env) (file_path : string) :
  validate_schema env file_path = [] <->
  VALIDATOR_AVAILABLE env = true
  /\ (validate env file_path = None
      \/ exists e,
           validate env file_path = Some e
           /\ exn_class_of e <> OpenAPIValidationError
           /\ strip (exn_str e) = "").
Proof.
  unfold validate_schema. split.
  - destruct (VALIDATOR_AVAILABLE env); cbn [negb]; [ | discriminate ].
    destruct (validate env file_path) as [e | ]; [ | now auto ].
    intros H. split; [ reflexivity | ]. right. exists e.
    split; [ reflexivity | ].
    destruct (exn_class_of e); try discriminate;
      (split; [ discriminate | ]);
      destruct (String.eqb_spec (strip (exn_str e)) ""); auto; discriminate.
  - intros (-> & [-> | (e & -> & Hc & Hs)]); cbn [negb]; [ reflexivity | ].
    rewrite Hs. destruct (exn_class_of e); try reflexivity. congruence.
Qed.

(** ** The properties on sample runs *)

Lemma lint_spec_rules_document :
  lint_spec (VDict rules_entries) = Ok rules_warnings.
Proof. reflexivity. Qed.

Lemma lint_spec_returns_iff_well_shaped_witness :
  (exists ws, lint_spec options_first_document = Ok ws)
  <-> well_shaped options_first_document = true.
Proof.
  apply (lint_spec_returns_iff_well_shaped options_first_document).
  reflexivity.
Defined.

Lemma lint_spec_raises_missing_attribute_witness :
  exn_class_of (attribute_error "NoneType" "get") = AttributeError
  /\ missing_attribute (attribute_error "NoneType" "get").
Proof.
  apply (lint_spec_raises_missing_attribute null_components_document);
    reflexivity.
Defined.

Lemma lint_spec_warnings_by_rule_witness :
  Forall (fun w => startswith w "LINT: " = true /\ 1 <= rule_of w <= 6)
         rules_warnings
  /\ rules_warnings
     = (of_rule 1 rules_warnings ++ of_rule 2 rules_warnings
        ++ of_rule 3 rules_warnings ++ of_rule 4 rules_warnings
        ++ of_rule 5 rules_warnings ++ of_rule 6 rules_warnings)%list.
Proof.
  apply (lint_spec_warnings_by_rule (VDict rules_entries)). reflexivity.
Defined.

Lemma version_rule_witness :
  of_rule 1 rules_warnings = ["LINT: OpenAPI version '2.0' is not 3.x"].
Proof.
  refine (proj2 (version_rule rules_entries rules_warnings _) "2.0" _ _).
  - reflexivity.
  - reflexivity.
  - discriminate.
Defined.

Lemma info_rule_witness :
  of_rule 2 rules_warnings
  = ["LINT: Missing 'info.version'";
     "LINT: Missing 'info.description' (recommended)"].
Proof.
  refine (proj2 (info_rule rules_entries rules_warnings _) rules_info _ _).
  - reflexivity.
  - reflexivity.
  - discriminate.
Defined.

Lemma servers_rule_witness :
  of_rule 6 rules_warnings
  = ["LINT: No servers defined (recommended for clarity)"].
Proof.
  refine (proj1 (servers_rule rules_entries rules_warnings _)).
  reflexivity.
Defined.

Lemma security_rule_witness :
  of_rule 5 rules_warnings
  = ["LINT: Security requirements defined but no securitySchemes in components"].
Proof.
  refine (security_rule rules_entries rules_components rules_warnings _ _).
  - reflexivity.
  - left. reflexivity.
Defined.

Lemma no_paths_rule_witness :
  of_rule 3 scenario_A_warnings = ["LINT: No paths defined"].
Proof.
  refine (no_paths_rule [] scenario_A_warnings _ _); reflexivity.
Defined.

Lemma path_naming_rule_witness :
  In "LINT: Path 'x' should start with '/'" rules_warnings.
Proof.
  refine (path_naming_rule rules_entries rules_paths "x" VNone
            rules_warnings _ _ _ _).
  - reflexivity.
  - reflexivity.
  - simpl. auto.
  - reflexivity.
Defined.

Lemma null_path_items_rule_witness :
  of_rule 3 null_paths_warnings = ["LINT: Path 'x' should start with '/'"].
Proof.
  refine (null_path_items_rule null_paths_entries null_paths
            null_paths_warnings _ _ _ _).
  - reflexivity.
  - reflexivity.
  - discriminate.
  - intros entry [<- | [<- | []]]; reflexivity.
Defined.

Lemma no_responses_rule_witness :
  check_operation "options" "/x" (VDict operation_tagged)
  = Ok (tt, ["LINT: OPTIONS /x missing 'operationId'";
             "LINT: OPTIONS /x missing 'summary' or 'description'";
             "LINT: OPTIONS /x has no responses defined"])
  /\ In "LINT: OPTIONS /x has no responses defined" options_first_warnings.
Proof.
  refine (no_responses_rule
            [(KStr "paths", VDict [(KStr "/x", VDict item_options_first)])]
            [(KStr "/x", VDict item_options_first)]
            item_options_first operation_tagged "/x" "options"
            options_first_warnings _ _ _ _ _ _ _).
  - reflexivity.
  - reflexivity.
  - simpl. auto.
  - simpl. tauto.
  - reflexivity.
  - discriminate.
  - reflexivity.
Defined.

Lemma no_schemas_rule_witness : of_rule 4 scenario_A_warnings = [].
Proof.
  refine (no_schemas_rule [] scenario_A_warnings _ _).
  - reflexivity.
  - left. reflexivity.
Defined.

Lemma lint_failure_report_witness :
  run (sample_env true true true ".json" (Ok null_components_document)
                  (Ok null_components_document) (Some info_violation))
      (sample_args false false)
  = {| file := "api.json"; valid := false;
       schema_errors :=
         ["Failed to parse spec: 'NoneType' object has no attribute 'get'"];
       lint_warnings := [] |}
  /\ main (sample_env true true true ".json" (Ok null_components_document)
                      (Ok null_components_document) (Some info_violation))
          (sample_args false false) = 1%Z.
Proof.
  apply (lint_failure_report
           (sample_env true true true ".json" (Ok null_components_document)
                       (Ok null_components_document) (Some info_violation))
           (sample_args false false) null_components_document
           (attribute_error "NoneType" "get")); reflexivity.
Defined.

Lemma non_mapping_document_report_witness :
  lint_spec VNone = Raise (attribute_error "NoneType" "get")
  /\ schema_errors (run empty_yaml_env (sample_args true false))
     = ["Failed to parse spec: 'NoneType' object has no attribute 'get'"]
  /\ valid (run empty_yaml_env (sample_args true false)) = false.
Proof.
  apply (non_mapping_document_report empty_yaml_env (sample_args true false)
                                     VNone).
  - reflexivity.
  - reflexivity.
  - discriminate.
Defined.

Lemma lint_only_ignores_validator_witness :
  run (with_validator false (fun _ => Some info_violation) empty_yaml_env)
      (sample_args true false)
  = run empty_yaml_env (sample_args true false).
Proof.
  apply (lint_only_ignores_validator empty_yaml_env (sample_args true false)).
  reflexivity.
Defined.

Lemma schema_only_ignores_document_witness :
  lint_warnings
    (run (sample_env true true true ".json" (Ok scenario_A) (Ok scenario_A)
                     (Some info_violation))
         (sample_args false true)) = []
  /\ run (sample_env true true true ".json" (Ok scenario_A) (Ok scenario_A)
                     (Some info_violation))
         (sample_args false true)
     = run (sample_env true true true ".json" (Ok scenario_B) (Ok scenario_B)
                       (Some info_violation))
           (sample_args false true).
Proof.
  apply (schema_only_ignores_document
           (sample_env true true true ".json" (Ok scenario_A) (Ok scenario_A)
                       (Some info_violation))
           (sample_env true true true ".json" (Ok scenario_B) (Ok scenario_B)
                       (Some info_violation))
           (sample_args false true) scenario_A scenario_B); reflexivity.
Defined.

Lemma load_spec_provenance_witness :
  path_exists empty_yaml_env "openapi" = true
  /\ exists content,
       read_text empty_yaml_env "openapi" = Ok content
       /\ ((YAML_AVAILABLE empty_yaml_env = true
            /\ suffix empty_yaml_env "openapi" <> ".json"
            /\ yaml_safe_load empty_yaml_env content = Ok VNone)
           \/ (suffix empty_yaml_env "openapi" <> ".yaml"
               /\ suffix empty_yaml_env "openapi" <> ".yml"
               /\ json_loads empty_yaml_env content = Ok VNone)).
Proof.
  apply (load_spec_provenance empty_yaml_env "openapi" VNone). reflexivity.
Defined.

Lemma load_spec_hinted_witness :
  load_spec (sample_env false true true ".yaml" (Ok scenario_A)
                        (Ok scenario_A) None) "api.yaml"
  = Raise (Exn ImportError
             "PyYAML is required for YAML files. Install with: pip install pyyaml"
             None).
Proof.
  refine (proj2 (load_spec_hinted
                   (sample_env false true true ".yaml" (Ok scenario_A)
                               (Ok scenario_A) None)
                   "api.yaml" "content" _ _) _).
  - reflexivity.
  - reflexivity.
  - left. reflexivity.
Defined.

Lemma load_spec_unhinted_witness :
  load_spec empty_yaml_env "openapi" = Ok VNone.
Proof.
  refine (proj1 (load_spec_unhinted empty_yaml_env "openapi" "content"
                   _ _ _ _ _ _) VNone _);
    solve [ reflexivity | discriminate ].
Defined.

Lemma validate_schema_findings_witness :
  ("ERROR: timed out" = validator_missing /\ true = false)
  \/ (exists text, "ERROR: timed out" = "SCHEMA ERROR: " ++ text)
  \/ (exists text,
        "ERROR: timed out" = "ERROR: " ++ text /\ text <> ""
        /\ trimmed text).
Proof.
  apply (validate_schema_findings
           (sample_env true true true ".json" (Ok scenario_A) (Ok scenario_A)
                       (Some timeout_failure))
           "api.json" "ERROR: timed out").
  simpl. auto.
Defined.

Lemma validate_schema_clean_witness :
  validate_schema
    (sample_env true true true ".json" (Ok scenario_A) (Ok scenario_A)
                (Some blank_failure)) "api.json" = [].
Proof.
  apply (proj2 (validate_schema_clean
                  (sample_env true true true ".json" (Ok scenario_A)
                              (Ok scenario_A) (Some blank_failure))
                  "api.json")).
  split; [ reflexivity | ]. right. exists blank_failure.
  repeat split; solve [ reflexivity | discriminate ].
Defined.

(** ** The paths rule, entry by entry *)

(** A loop that returns appended what its rounds appended, in order. *)
Lemma for_each_flat_map {X} (body : X -> Lint unit) (f : X -> list string)
    (l : list X) (u : unit) (w : list string) :
  (forall x wx, In x l -> body x = Ok (tt, wx) -> wx = f x) ->
  for_each l body = Ok (u, w) -> w = flat_map f l.
Proof.
  revert u w. induction l as [ | x l IH ]; intros u w Hb H.
  - now injection H as _ <-.
  - apply for_each_cons in H as (wx & wl & Hx & Hl & ->). simpl. f_equal.
    + apply Hb; [ now left | exact Hx ].
    + eapply IH; [ | exact Hl ]. intros y wy Hy. apply Hb. now right.
Qed.

Lemma check_response_exact (op_id : string) (entry : key * value)
    (w : list string) :
  check_response op_id entry = Ok (tt, w) -> w = response_warnings op_id entry.
Proof.
  destruct entry as [code response].
  unfold check_response, response_warnings. cbn [fst snd].
  destruct response as [ | b | n | r | s | l | [ | e d ] ];
    try (destruct (truthy _);
         [ unfold py_get; cbn [dict_method bind raise]; discriminate
         | intros H; now injection H as <- ]).
  - cbn [truthy]. intros H. now injection H as <-.
  - cbn [truthy]. rewrite py_get_dict, bind_ret.
    fold (falsy_entry (e :: d) "description").
    destruct (falsy_entry (e :: d) "description"); intros H;
      now injection H as <-.
Qed.

Lemma check_responses_exact (op_id : string) (op : dict) (w : list string) :
  check_responses op_id (VDict op) = Ok (tt, w) ->
  w = responses_warnings op_id op.
Proof.
  unfold check_responses, responses_warnings. rewrite py_get_dict, bind_ret.
  destruct (lookup op "responses") as [ [ | b | n | r | s | l | [ | e d ] ] | ];
    try (destruct (truthy _); cbn [negb];
         [ cbn [dict_method bind raise]; discriminate
         | intros H; now injection H as <- ]);
    try (cbn [truthy negb]; intros H; now injection H as <-).
  cbn [truthy negb dict_method]. rewrite bind_ret. intros H.
  apply bind_ok in H as ([] & w1 & wd & H1 & H2 & ->).
  rewrite bind_ret in H2. f_equal.
  - unfold no_success. destruct (_ && _); now injection H1 as <-.
  - eapply for_each_flat_map; [ | exact H2 ].
    intros x wx _. apply check_response_exact.
Qed.




Lemma check_schema_exact (entry : key * value) (w : list string) :
  check_schema entry = Ok (tt, w) -> w = schema_warnings entry.
Proof.
  destruct entry as [name schema]. unfold schema_warnings. cbn [fst snd].
  destruct schema as [ | b | n | r | s | l | [ | e d ] ];
    try (unfold check_schema; destruct (truthy _);
         [ unfold py_get; cbn [dict_method bind raise]; discriminate
         | intros H; now injection H as <- ]);
    try (unfold check_schema; cbn [truthy]; intros H; now injection H as <-).
  rewrite check_schema_blocks by discriminate. intros H. now injection H as <-.
Qed.





(** ** Which warnings an operation and a schema get *)

Lemma append_cancel (a b c : string) : a ++ b = a ++ c -> b = c.
Proof.
  induction a as [ | x a IH ]; simpl; intros H; [ exact H | ].
  injection H as H. now apply IH.
Qed.

(** No warning about a response description is the warning about the
    missing success response. *)
Lemma success_warning_not_response (op_id : string) (responses : dict) :
  ~ In ("LINT: " ++ op_id ++ " has no success (2xx) response")
       (flat_map (response_warnings op_id) responses).
Proof.
  intros H. apply in_flat_map in H as ([code response] & _ & H).
  unfold response_warnings in H. cbn [fst snd] in H.
  destruct response as [ | b | n | r | s | l | [ | e d ] ]; try contradiction.
  destruct (falsy_entry (e :: d) "description"); [ | contradiction ].
  destruct H as [H | []]. simpl in H.
  repeat (injection H as H). apply append_cancel in H. discriminate H.
Qed.

(** The success rule: for a checked operation whose [responses] mapping has
    entries, the warnings about the responses are, in this order, the
    warning that no success response exists, given exactly when no status
    code starts with "2" and there is no [default] entry, and the warnings
    about the response descriptions. *)
Theorem success_response_rule
    (d paths item op responses : dict) (p m : string) (ws : list string) :
  lint_spec (VDict d) = Ok ws ->
  lookup d "paths" = Some (VDict paths) ->
  In (KStr p, VDict item) paths ->
  In m methods ->
  lookup item m = Some (VDict op) -> op <> [] ->
  lookup op "responses" = Some (VDict responses) -> responses <> [] ->
  check_responses (op_id_of m p) (VDict op)
  = Ok (tt,
        (warn_if (no_success responses)
                 ("LINT: " ++ op_id_of m p ++ " has no success (2xx) response")
         ++ flat_map (response_warnings (op_id_of m p)) responses)%list)
  /\ within
       (warn_if (no_success responses)
                ("LINT: " ++ op_id_of m p ++ " has no success (2xx) response")
        ++ flat_map (response_warnings (op_id_of m p)) responses) ws
  /\ (In ("LINT: " ++ op_id_of m p ++ " has no success (2xx) response")
         (warn_if (no_success responses)
                  ("LINT: " ++ op_id_of m p ++ " has no success (2xx) response")
          ++ flat_map (response_warnings (op_id_of m p)) responses)
      <-> no_success responses = true).
Proof.
  intros H Hp Hin Hm Hop Hne Hr Hrne.
  destruct (lint_spec_operation _ _ _ _ _ _ _ H Hp Hin Hm Hop Hne)
    as (w & Hw & Hin_w).
  apply check_operation_blocks in Hw as (wr & Hwr & ->).
  pose proof (check_responses_exact _ _ _ Hwr) as Hexact.
  unfold responses_warnings in Hexact. rewrite Hr in Hexact.
  destruct responses as [ | e rs ]; [ contradiction | ].
  subst wr. split; [ exact Hwr | split ].
  - eapply within_trans; [ | exact Hin_w ].
    rewrite app_assoc. apply within_app_r.
  - split.
    + intros Hi. apply in_app_or in Hi as [Hi | Hi].
      * destruct (no_success (e :: rs)); [ reflexivity | contradiction ].
      * now apply success_warning_not_response in Hi.
    + intros ->. now left.
Qed.

Lemma success_response_rule_witness :
  check_responses "GET /y" (VDict rules_operation)
  = Ok (tt, ["LINT: GET /y has no success (2xx) response"])
  /\ within ["LINT: GET /y has no success (2xx) response"] rules_warnings
  /\ (In "LINT: GET /y has no success (2xx) response"
         ["LINT: GET /y has no success (2xx) response"]
      <-> true = true).
Proof.
  refine (success_response_rule rules_entries rules_paths
            [(KStr "get", VDict rules_operation)] rules_operation
            [(KInt 404, VDict not_found_response)] "/y" "get"
            rules_warnings _ _ _ _ _ _ _ _).
  - reflexivity.
  - reflexivity.
  - simpl. auto.
  - simpl. auto.
  - reflexivity.
  - discriminate.
  - reflexivity.
  - discriminate.
Defined.

(** The schemas rule: the warnings of the rule are exactly those of the
    schemas that are mappings with entries, in document order: for each,
    the description warning exactly when its [description] is missing or
    falsy, then the type warning exactly when [type], [$ref], [allOf],
    [oneOf] and [anyOf] are all missing or falsy. *)
Theorem schema_rule (d components schemas : dict) (ws : list string) :
  lint_spec (VDict d) = Ok ws ->
  lookup d "components" = Some (VDict components) ->
  lookup components "schemas" = Some (VDict schemas) ->
  of_rule 4 ws = flat_map schema_warnings schemas
  /\ (forall (name : key) (schema : dict),
        In (name, VDict schema) schemas -> schema <> [] ->
        check_schema (name, VDict schema)
        = Ok (tt,
              (warn_if (falsy_entry schema "description")
                       ("LINT: Schema '" ++ str_key name
                        ++ "' missing description (recommended)")
               ++ warn_if (forallb (fun n => falsy_entry schema n)
                                   ["type"; "$ref"; "allOf"; "oneOf"; "anyOf"])
                          ("LINT: Schema '" ++ str_key name
                           ++ "' has no type definition"))%list)).
Proof.
  intros H Hc Hs.
  destruct (lint_spec_rule_blocks _ _ H) as (_ & _ & _ & R & _).
  unfold check_schemas in R.
  rewrite py_get_dict, bind_ret, Hc, py_get_dict, bind_ret, Hs in R.
  cbn [dict_method] in R. rewrite bind_ret in R.
  split.
  - eapply for_each_flat_map; [ | exact R ].
    intros x wx _. apply check_schema_exact.
  - intros name schema _ Hne. now apply check_schema_blocks.
Qed.

Lemma schema_rule_witness :
  of_rule 4 rules_warnings = flat_map schema_warnings rules_schemas
  /\ (forall (name : key) (schema : dict),
        In (name, VDict schema) rules_schemas -> schema <> [] ->
        check_schema (name, VDict schema)
        = Ok (tt,
              (warn_if (falsy_entry schema "description")
                       ("LINT: Schema '" ++ str_key name
                        ++ "' missing description (recommended)")
               ++ warn_if (forallb (fun n => falsy_entry schema n)
                                   ["type"; "$ref"; "allOf"; "oneOf"; "anyOf"])
                          ("LINT: Schema '" ++ str_key name
                           ++ "' has no type definition"))%list)).
Proof.
  apply (schema_rule rules_entries rules_components rules_schemas
                     rules_warnings); reflexivity.
Defined.

(** ** Two runs of the linter in one process *)

Lemma extend_nil (l : nat) (st : Stateful.Store) : Stateful.extend l [] st = st.
Proof.
  revert l. induction st as [ | x st IH ]; intros [ | l ]; simpl; try reflexivity.
  - now rewrite app_nil_r.
  - now rewrite IH.
Qed.

Lemma extend_extend (l : nat) (w1 w2 : list string) (st : Stateful.Store) :
  Stateful.extend l w2 (Stateful.extend l w1 st)
  = Stateful.extend l (w1 ++ w2)%list st.
Proof.
  revert l. induction st as [ | x st IH ]; intros [ | l ]; simpl; try reflexivity.
  - now rewrite app_assoc.
  - now rewrite IH.
Qed.

Lemma length_extend (l : nat) (w : list string) (st : Stateful.Store) :
  length (Stateful.extend l w st) = length st.
Proof.
  revert l. induction st as [ | x st IH ]; intros [ | l ]; simpl; try reflexivity.
  now rewrite IH.
Qed.

Lemma extend_new (st : Stateful.Store) (x w : list string) :
  Stateful.extend (length st) w (st ++ [x])%list = (st ++ [(x ++ w)%list])%list.
Proof. induction st as [ | y st IH ]; simpl; [ reflexivity | now rewrite IH ]. Qed.

Section Simulates.

Context (l : nat).

Lemma simulates_ret {A} (a : A) : simulates l (ret a) (Stateful.ret a).
Proof. intros st _. simpl. unfold Stateful.ret. now rewrite extend_nil. Qed.

Lemma simulates_append (msg : string) :
  simulates l (append msg) (Stateful.append l msg).
Proof. intros st _. reflexivity. Qed.

Lemma simulates_when (b : bool) (msg : string) :
  simulates l (when b (append msg))
            (Stateful.when b (Stateful.append l msg)).
Proof. destruct b; [ apply simulates_append | apply simulates_ret ]. Qed.

Lemma simulates_read {A} (m : Lint A) :
  silent m -> simulates l m (Stateful.read m).
Proof.
  intros Hs st _. unfold Stateful.read. destruct m as [[a w] | e].
  - pose proof (Hs a w eq_refl) as Hw.
    destruct w as [ | x w ]; [ now rewrite extend_nil | ].
    inversion Hw; contradiction.
  - now exists st.
Qed.

Lemma simulates_bind {A B} (mp : Lint A) (fp : A -> Lint B)
    (mr : Stateful.Run A) (fr : A -> Stateful.Run B) :
  simulates l mp mr -> (forall a, simulates l (fp a) (fr a)) ->
  simulates l (bind mp fp) (Stateful.bind mr fr).
Proof.
  intros Hm Hf st Hl. specialize (Hm st Hl).
  unfold bind, Stateful.bind. destruct mp as [[a w1] | e].
  - rewrite Hm.
    assert (Hl' : l < length (Stateful.extend l w1 st))
      by now rewrite length_extend.
    specialize (Hf a _ Hl'). destruct (fp a) as [[b w2] | e].
    + now rewrite Hf, extend_extend.
    + destruct Hf as (st' & -> & Hlen). exists st'.
      split; [ reflexivity | now rewrite Hlen, length_extend ].
  - destruct Hm as (st' & -> & Hlen). now exists st'.
Qed.

Lemma simulates_for_each {X} (xs : list X) (bp : X -> Lint unit)
    (br : X -> Stateful.Run unit) :
  (forall x, simulates l (bp x) (br x)) ->
  simulates l (for_each xs bp) (Stateful.for_each xs br).
Proof.
  intros Hb. induction xs as [ | x xs IH ]; simpl.
  - apply simulates_ret.
  - apply simulates_bind; [ apply Hb | intros _; exact IH ].
Qed.

End Simulates.

Lemma silent_py_get (v : value) (name : string) (default : value) :
  silent (py_get v name default).
Proof. apply emits_py_get. Qed.

Lemma silent_dict_method (v : value) (attr : string) :
  silent (dict_method v attr).
Proof. apply emits_dict_method. Qed.

Lemma silent_str_method (v : value) (attr : string) :
  silent (str_method v attr).
Proof. apply emits_str_method. Qed.

Lemma silent_key_str_method (k : key) (attr : string) :
  silent (key_str_method k attr).
Proof. apply emits_key_str_method. Qed.

Lemma silent_none_truthy (v : value) (names : list string) :
  silent (none_truthy v names).
Proof. apply emits_none_truthy. Qed.

Create HintDb simulates.

#[local] Hint Resolve simulates_ret simulates_append simulates_when
  silent_py_get silent_dict_method silent_str_method silent_key_str_method
  silent_none_truthy : simulates.

(** One statement of the function body against the same statement of
    [lint_spec]. *)
Ltac simulates_step :=
  first
    [ solve [ auto with simulates ]
    | apply simulates_read; solve [ auto with simulates ]
    | apply simulates_bind; [ | intros ? ] ].

Lemma simulates_check_response (l : nat) (op_id : string)
    (entry : key * value) :
  simulates l (check_response op_id entry)
            (Stateful.check_response l op_id entry).
Proof.
  destruct entry as [code response].
  unfold check_response, Stateful.check_response.
  destruct (truthy response); repeat simulates_step.
Qed.

#[local] Hint Resolve simulates_check_response : simulates.

Lemma simulates_check_responses (l : nat) (op_id : string)
    (operation : value) :
  simulates l (check_responses op_id operation)
            (Stateful.check_responses l op_id operation).
Proof.
  unfold check_responses, Stateful.check_responses.
  simulates_step; [ simulates_step | ].
  destruct (negb (truthy a)); repeat simulates_step.
  apply simulates_for_each. intros x. apply simulates_check_response.
Qed.

#[local] Hint Resolve simulates_check_responses : simulates.

Lemma simulates_check_operation (l : nat) (m p : string) (operation : value) :
  simulates l (check_operation m p operation)
            (Stateful.check_operation l m p operation).
Proof.
  unfold check_operation, Stateful.check_operation. repeat simulates_step.
Qed.

#[local] Hint Resolve simulates_check_operation : simulates.

Lemma simulates_check_method (l : nat) (p : string) (item : value)
    (m : string) :
  simulates l (check_method p item m) (Stateful.check_method l p item m).
Proof.
  unfold check_method, Stateful.check_method.
  simulates_step; [ simulates_step | ].
  destruct (truthy a); simulates_step.
Qed.

Lemma simulates_check_path (l : nat) (entry : key * value) :
  simulates l (check_path entry) (Stateful.check_path l entry).
Proof.
  destruct entry as [k item]. unfold check_path, Stateful.check_path.
  simulates_step; [ simulates_step | ].
  simulates_step; [ simulates_step | ].
  destruct item; try (apply simulates_for_each; intros m;
                      apply simulates_check_method).
  simulates_step.
Qed.

Lemma simulates_check_paths (l : nat) (spec : value) :
  simulates l (check_paths spec) (Stateful.check_paths l spec).
Proof.
  unfold check_paths, Stateful.check_paths.
  simulates_step; [ simulates_step | ].
  destruct (negb (truthy a)); [ simulates_step | ].
  simulates_step; [ simulates_step | ].
  apply simulates_for_each. intros x. apply simulates_check_path.
Qed.

Lemma simulates_check_openapi_version (l : nat) (spec : value) :
  simulates l (check_openapi_version spec)
            (Stateful.check_openapi_version l spec).
Proof.
  unfold check_openapi_version, Stateful.check_openapi_version.
  simulates_step; [ simulates_step | ].
  destruct (negb (truthy a)); repeat simulates_step.
Qed.

Lemma simulates_check_info (l : nat) (spec : value) :
  simulates l (check_info spec) (Stateful.check_info l spec).
Proof.
  unfold check_info, Stateful.check_info.
  simulates_step; [ simulates_step | ].
  destruct (negb (truthy a)); repeat simulates_step.
Qed.

Lemma simulates_check_schema (l : nat) (entry : key * value) :
  simulates l (check_schema entry) (Stateful.check_schema l entry).
Proof.
  destruct entry as [name schema].
  unfold check_schema, Stateful.check_schema.
  destruct (truthy schema); repeat simulates_step.
Qed.

#[local] Hint Resolve simulates_check_paths simulates_check_openapi_version
  simulates_check_info : simulates.

(** One call: from any store, the call returns a new list that holds the
    warnings of [lint_spec], and leaves the lists that were there as they
    were; or it raises what [lint_spec] raises. *)
Lemma stateful_lint_spec (spec : value) (st : Stateful.Store) :
  match lint_spec spec with
  | Ok ws =>
      Stateful.lint_spec spec st = (Ok (length st), (st ++ [ws])%list)
  | Raise e => exists st', Stateful.lint_spec spec st = (Raise e, st')
  end.
Proof.
  assert (Hsim :
    simulates (length st)
      (check_openapi_version spec ;;
       check_info spec ;;
       check_paths spec ;;
       components <- py_get spec "components" (VDict []) ;;
       schemas <- py_get components "schemas" (VDict []) ;;
       items <- dict_method schemas "items" ;;
       for_each items check_schema ;;
       security <- py_get spec "security" (VList []) ;;
       security_schemes <- py_get components "securitySchemes" (VDict []) ;;
       when (truthy security && negb (truthy security_schemes))
            (append "LINT: Security requirements defined but no securitySchemes in components") ;;
       servers <- py_get spec "servers" (VList []) ;;
       when (negb (truthy servers))
            (append "LINT: No servers defined (recommended for clarity)"))
      (Stateful.rules (length st) spec)).
  { unfold Stateful.rules.
    do 6 (simulates_step; [ simulates_step | ]).
    simulates_step;
      [ apply simulates_for_each; intros x; apply simulates_check_schema | ].
    repeat simulates_step. }
  assert (Hl : length st < length (st ++ [[]])%list)
    by (rewrite length_app; simpl; lia).
  specialize (Hsim _ Hl). unfold lint_spec.
  unfold Stateful.lint_spec, Stateful.bind, Stateful.new_list.
  destruct (_ ;; _) as [[[] ws] | e]; simpl.
  - rewrite Hsim. unfold Stateful.ret. now rewrite extend_new.
  - destruct Hsim as (st' & -> & _). now exists st'.
Qed.

(** C9: two calls of the linter on one document, one after the other in
    one process, give the same outcome: two lists that hold the same
    warnings in the same order once both calls are done, the warnings of
    [lint_spec], or the same exception twice. The second call starts from
    the store the first one has left. *)
Theorem lint_spec_twice_identical (spec : value) (st : Stateful.Store) :
  fst (Stateful.lint_twice spec st) = snd (Stateful.lint_twice spec st)
  /\ fst (Stateful.lint_twice spec st) = lint_spec spec.
Proof.
  unfold Stateful.lint_twice.
  pose proof (stateful_lint_spec spec st) as H1.
  destruct (lint_spec spec) as [ws | e] eqn:E.
  - rewrite H1. pose proof (stateful_lint_spec spec (st ++ [ws])%list) as H2.
    rewrite E in H2. rewrite H2. cbn [fst snd Stateful.contents].
    assert (A1 : nth (length st) ((st ++ [ws]) ++ [ws])%list [] = ws)
      by (rewrite <- app_assoc; apply (nth_middle st [ws] ws [])).
    assert (A2 : nth (length (st ++ [ws])%list) ((st ++ [ws]) ++ [ws])%list []
                 = ws)
      by apply (nth_middle (st ++ [ws])%list [] ws []).
    rewrite A1, A2. now split.
  - destruct H1 as (st1 & ->).
    pose proof (stateful_lint_spec spec st1) as H2. rewrite E in H2.
    destruct H2 as (st2 & ->). now split.
Qed.

(** ** A run that skips the conformance phase and is invalid *)

(** C6 fails on the code: with --lint-only on a file that loads as
    {"components": None} the conformance phase is skipped and the file
    loads, yet [lint_spec] raises at line 143, the handler of line 199
    reports it as a parse failure, and the report is invalid with one
    conformance error and the exit status 1. *)
Theorem lint_only_report_invalid :
  load_spec null_components_env "api.json" = Ok null_components_document
  /\ lint_only (sample_args true false) = true
  /\ run null_components_env (sample_args true false)
     = {| file := "api.json"; valid := false;
          schema_errors :=
            ["Failed to parse spec: 'NoneType' object has no attribute 'get'"];
          lint_warnings := [] |}
  /\ main null_components_env (sample_args true false) = 1%Z.
Proof. repeat split; reflexivity. Qed.
